(** * Timetable scheduler: the Python interface of the Prolog timetable engine

    A shallow embedding of [Prolog/timetable_py.py].  The module keeps a
    catalog of courses, time slots and rooms in three dictionaries, asks a
    Prolog knowledge base (or a built-in mock) for a schedule, and scans a
    schedule for teacher and room double-bookings.

    Python values are modelled as follows: [str] as [string], [int] as [Z]
    (unbounded, [//] is [Z.div]), [Dict[str, _]] as [gmap string _], [set] of
    strings as [gset string], [List[_]] as [list _], [str(n)] of an integer as
    stdpp's decimal [pretty], up to CPython's limit on the number of digits.
    A raised exception is a value of [result]. *)

From Stdlib Require Import Ascii.
From stdpp Require Import gmap strings list fin_maps pretty.

Local Open Scope Z_scope.
Local Open Scope string_scope.

(** ** Data classes *)

Module Course.
Record t : Type := mk {
  id : string;
  name : string;
  teacher_id : string;
  teacher_name : string;
  duration : Z;
  room_type : string;
}.
End Course.

Module TimeSlot.
Record t : Type := mk {
  id : string;
  day : string;
  start_time : Z;
  end_time : Z;
  duration : Z;
}.
End TimeSlot.

Module Room.
Record t : Type := mk {
  id : string;
  room_type : string;
  capacity : Z;
}.
End Room.

Record ScheduleEntry : Type := mkEntry {
  course : Course.t;
  time_slot : TimeSlot.t;
  room : Room.t;
}.

(** ** Exceptions *)

Inductive exn : Type :=
  | KeyError (key : string)
  | AttributeError (attr : string)
  | PrologError
  | ValueError.

Inductive result (A : Type) : Type :=
  | Ok (a : A)
  | Raise (e : exn).
Arguments Ok {A} a.
Arguments Raise {A} e.

Global Instance result_ret : MRet result := λ A a, Ok a.
Global Instance result_bind : MBind result := λ A B f r,
  match r with
  | Ok a => f a
  | Raise e => Raise e
  end.

(** [d[k]]: raises [KeyError] on a missing key. *)
Definition getitem {V} (d : gmap string V) (k : string) : result V :=
  match d !! k with
  | Some v => Ok v
  | None => Raise (KeyError k)
  end.

(** [d.setdefault(k, v)]: the value stored under [k], storing [v] first when
    [k] is missing; the dictionary is updated in place. *)
Definition setdefault {V} (d : gmap string V) (k : string) (v : V)
  : V * gmap string V :=
  match d !! k with
  | Some x => (x, d)
  | None => (v, <[k := v]> d)
  end.

(** ** Integers as text *)

(** [sys.get_int_max_str_digits()]: CPython (3.11 and later) refuses to
    convert an integer of more decimal digits to text. *)
Definition int_max_str_digits : Z := 4300.

(** The integers [str] and the f-strings convert. *)
Definition printable (n : Z) : Prop := Z.abs n < 10 ^ int_max_str_digits.

Global Instance printable_dec n : Decision (printable n) :=
  decide (Z.abs n < 10 ^ int_max_str_digits).

(** [str(n)], also [f"{n}"]: the decimal form, or ValueError beyond the
    limit. *)
Definition str_int (n : Z) : result string :=
  if decide (printable n) then Ok (pretty n) else Raise ValueError.

(** ** Conflict scan ([check_conflicts]) *)

(** [f"{entry.time_slot.day}_{entry.time_slot.start_time}"] *)
Definition slot_key (entry : ScheduleEntry) : result string :=
  start ← str_int (TimeSlot.start_time (time_slot entry));
  Ok (TimeSlot.day (time_slot entry) +:+ "_" +:+ start).

(** The text of the key, for an entry whose key can be formatted. *)
Definition slot_text (entry : ScheduleEntry) : string :=
  TimeSlot.day (time_slot entry) +:+ "_" +:+
  pretty (TimeSlot.start_time (time_slot entry)).

(** The start times of all entries can be formatted. *)
Definition all_printable (entries : list ScheduleEntry) : Prop :=
  Forall (λ e, printable (TimeSlot.start_time (time_slot e))) entries.

Global Instance all_printable_dec entries : Decision (all_printable entries) :=
  Forall_dec (λ e, printable (TimeSlot.start_time (time_slot e))) entries.

Definition teacher_conflict (teacher key : string) : string :=
  "Teacher " +:+ teacher +:+ " has overlapping classes at " +:+ key.

Definition room_conflict (room key : string) : string :=
  "Room " +:+ room +:+ " has overlapping bookings at " +:+ key.

(** The three locals of [check_conflicts]. *)
Record scan : Type := mkScan {
  conflicts : list string;
  teacher_slots : gmap string (gset string);
  room_slots : gmap string (gset string);
}.

Definition scan_init : scan := mkScan [] ∅ ∅.

(** One [if key in slots.setdefault(who, set()): ... else: slots[who].add(key)]
    block: the grown conflict list and the updated dictionary. *)
Definition book (describe : string → string → string)
    (who key : string) (found : list string)
    (slots : gmap string (gset string))
  : result (list string * gmap string (gset string)) :=
  let '(booked, slots) := setdefault slots who ∅ in
  if decide (key ∈ booked) then
    Ok ((found ++ [describe who key])%list, slots)
  else
    held ← getitem slots who;
    Ok (found, <[who := held ∪ {[key]}]> slots).

(** The body of the [for entry in self.schedule] loop. *)
Definition check_entry (st : scan) (entry : ScheduleEntry) : result scan :=
  let teacher := Course.teacher_name (course entry) in
  let room := Room.id (room entry) in
  key ← slot_key entry;
  '(found, ts) ← book teacher_conflict teacher key (conflicts st) (teacher_slots st);
  '(found, rs) ← book room_conflict room key found (room_slots st);
  Ok (mkScan found ts rs).

Fixpoint scan_entries (st : scan) (entries : list ScheduleEntry) : result scan :=
  match entries with
  | [] => Ok st
  | entry :: rest => st' ← check_entry st entry; scan_entries st' rest
  end.

Definition conflicts_of (entries : list ScheduleEntry) : result (list string) :=
  st ← scan_entries scan_init entries; Ok (conflicts st).

(** ** The Prolog engine

    The knowledge base is loaded from a file named by the caller and is
    reached only through [consult] and [query]; it is taken as a parameter.
    A query yields its solutions one by one and may raise while doing so. *)

Inductive ending : Type :=
  | Exhausted
  | Raised.

Record answers (A : Type) : Type := mkAnswers {
  solutions : list A;
  ended : ending;
}.
Arguments mkAnswers {A} solutions ended.
Arguments solutions {A} a.
Arguments ended {A} a.

Class PrologEngine (KB : Type) : Type := {
  (** [Prolog()] *)
  new_engine : KB;
  (** [prolog.consult(prolog_file)] *)
  consult : string → KB → result KB;
  (** [get_course_details(CourseID, CourseName, TeacherName, Duration, RoomType)] *)
  get_course_details : KB → answers (string * string * string * Z * string) * KB;
  (** [get_time_details(SlotID, Day, StartTime, EndTime)] *)
  get_time_details : KB → answers (string * string * Z * Z) * KB;
  (** [get_room_details(RoomID, RoomType, Capacity)] *)
  get_room_details : KB → answers (string * string * Z) * KB;
  clear_schedule : KB → answers () * KB;
  generate_optimal_timetable : KB → answers () * KB;
  (** [get_schedule(Schedule)]: each solution binds [Schedule] to a list of
      (course, slot, room) id triples. *)
  get_schedule : KB → answers (list (string * string * string)) * KB;
}.

(** ** The scheduler object *)

Section Scheduler.
Context {KB : Type} {engine : PrologEngine KB}.

Record TimetableScheduler : Type := mkScheduler {
  prolog_file : string;
  prolog_available : bool;
  prolog : option KB;
  courses : gmap string Course.t;
  time_slots : gmap string TimeSlot.t;
  rooms : gmap string Room.t;
  schedule : list ScheduleEntry;
}.

(** A method body: it runs on [self], may update it, and returns or raises.
    Updates made before a [raise] stay. *)
Definition py (A : Type) : Type :=
  TimetableScheduler → result A * TimetableScheduler.

Definition ret {A} (a : A) : py A := λ self, (Ok a, self).
Definition raise {A} (e : exn) : py A := λ self, (Raise e, self).
Definition bind {A B} (m : py A) (k : A → py B) : py B := λ self,
  match m self with
  | (Ok a, self') => k a self'
  | (Raise e, self') => (Raise e, self')
  end.
Definition try_except {A} (body : py A) (handler : exn → py A) : py A :=
  λ self,
  match body self with
  | (Ok a, self') => (Ok a, self')
  | (Raise e, self') => handler e self'
  end.
Definition lift {A} (r : result A) : py A := λ self, (r, self).
Definition get {A} (field : TimetableScheduler → A) : py A :=
  λ self, (Ok (field self), self).
Definition modify (f : TimetableScheduler → TimetableScheduler) : py () :=
  λ self, (Ok (), f self).

Notation "x <- m ;; k" := (bind m (λ x, k))
  (at level 100, m at next level, right associativity).
Notation "m ;;; k" := (bind m (λ _, k))
  (at level 100, right associativity).

Fixpoint for_each {A} (xs : list A) (body : A → py ()) : py () :=
  match xs with
  | [] => ret ()
  | x :: rest => body x ;;; for_each rest body
  end.

(** Attribute writes. *)
Definition set_prolog (kb : option KB) (s : TimetableScheduler) :=
  mkScheduler (prolog_file s) (prolog_available s) kb
    (courses s) (time_slots s) (rooms s) (schedule s).
Definition set_prolog_available (b : bool) (s : TimetableScheduler) :=
  mkScheduler (prolog_file s) b (prolog s)
    (courses s) (time_slots s) (rooms s) (schedule s).
Definition set_courses (d : gmap string Course.t) (s : TimetableScheduler) :=
  mkScheduler (prolog_file s) (prolog_available s) (prolog s)
    d (time_slots s) (rooms s) (schedule s).
Definition set_time_slots (d : gmap string TimeSlot.t) (s : TimetableScheduler) :=
  mkScheduler (prolog_file s) (prolog_available s) (prolog s)
    (courses s) d (rooms s) (schedule s).
Definition set_rooms (d : gmap string Room.t) (s : TimetableScheduler) :=
  mkScheduler (prolog_file s) (prolog_available s) (prolog s)
    (courses s) (time_slots s) d (schedule s).
Definition set_schedule (l : list ScheduleEntry) (s : TimetableScheduler) :=
  mkScheduler (prolog_file s) (prolog_available s) (prolog s)
    (courses s) (time_slots s) (rooms s) l.

(** [self.prolog]: the attribute exists only once [__init__] created the
    engine. *)
Definition the_prolog : py KB := λ self,
  match prolog self with
  | Some kb => (Ok kb, self)
  | None => (Raise (AttributeError "prolog"), self)
  end.

(** [for sol in self.prolog.query(q): body(sol)] *)
Definition for_query {A} (q : KB → answers A * KB) (body : A → py ()) : py () :=
  kb <- the_prolog ;;
  let '(ans, kb') := q kb in
  modify (set_prolog (Some kb')) ;;;
  for_each (solutions ans) body ;;;
  match ended ans with
  | Exhausted => ret ()
  | Raised => raise PrologError
  end.

(** [list(self.prolog.query(q))] *)
Definition list_query {A} (q : KB → answers A * KB) : py (list A) :=
  kb <- the_prolog ;;
  let '(ans, kb') := q kb in
  modify (set_prolog (Some kb')) ;;;
  match ended ans with
  | Exhausted => ret (solutions ans)
  | Raised => raise PrologError
  end.

(** *** Loading the catalog *)

Definition mock_courses : gmap string Course.t :=
  <["cs101" := Course.mk "cs101" "Computer Science 101" "t001" "Dr. Smith" 2 "computer_lab"]>
  (<["cs102" := Course.mk "cs102" "Data Structures" "t002" "Prof. Johnson" 2 "computer_lab"]>
  (<["math101" := Course.mk "math101" "Calculus I" "t003" "Dr. Brown" 1 "classroom"]>
  (<["math102" := Course.mk "math102" "Linear Algebra" "t004" "Prof. Davis" 2 "classroom"]>
  (<["phy101" := Course.mk "phy101" "Physics I" "t005" "Dr. Wilson" 2 "physics_lab"]> ∅)))).

Definition mock_time_slots : gmap string TimeSlot.t :=
  <["slot1" := TimeSlot.mk "slot1" "monday" 800 900 1]>
  (<["slot2" := TimeSlot.mk "slot2" "monday" 900 1000 1]>
  (<["slot3" := TimeSlot.mk "slot3" "monday" 1000 1200 2]>
  (<["slot4" := TimeSlot.mk "slot4" "tuesday" 800 900 1]>
  (<["slot5" := TimeSlot.mk "slot5" "tuesday" 1000 1200 2]> ∅)))).

Definition mock_rooms : gmap string Room.t :=
  <["r001" := Room.mk "r001" "computer_lab" 30]>
  (<["r002" := Room.mk "r002" "classroom" 40]>
  (<["r003" := Room.mk "r003" "physics_lab" 20]> ∅)).

Definition _load_mock_data : py () :=
  modify (set_courses mock_courses) ;;;
  modify (set_time_slots mock_time_slots) ;;;
  modify (set_rooms mock_rooms).

Definition load_course (sol : string * string * string * Z * string) : py () :=
  let '(course_id, course_name, teacher, duration, room_type) := sol in
  modify (λ s, set_courses
    (<[course_id := Course.mk course_id course_name "" teacher duration room_type]>
       (courses s)) s).

Definition load_time_slot (sol : string * string * Z * Z) : py () :=
  let '(slot_id, day, start, end_) := sol in
  modify (λ s, set_time_slots
    (<[slot_id := TimeSlot.mk slot_id day start end_ ((end_ - start) `div` 100)]>
       (time_slots s)) s).

Definition load_room (sol : string * string * Z) : py () :=
  let '(room_id, room_type, capacity) := sol in
  modify (λ s, set_rooms
    (<[room_id := Room.mk room_id room_type capacity]> (rooms s)) s).

Definition _load_from_prolog : py () :=
  try_except
    (for_query get_course_details load_course ;;;
     for_query get_time_details load_time_slot ;;;
     for_query get_room_details load_room)
    (λ _, _load_mock_data).

Definition _load_data : py () :=
  available <- get prolog_available ;;
  if available : bool then _load_from_prolog else _load_mock_data.

(** [__init__], with the module flag [PYSWIP_AVAILABLE] as an argument. *)
Definition __init__ (PYSWIP_AVAILABLE : bool) (file : string) : py () :=
  modify (λ _, mkScheduler file false None ∅ ∅ ∅ []) ;;;
  (if PYSWIP_AVAILABLE then
     modify (set_prolog (Some new_engine)) ;;;
     try_except
       (kb <- the_prolog ;;
        kb' <- lift (consult file kb) ;;
        modify (set_prolog (Some kb')) ;;;
        modify (set_prolog_available true))
       (λ _, ret ())
   else ret ()) ;;;
  _load_data.

(** The object [TimetableScheduler(file)] evaluates to. *)
Definition new_scheduler (PYSWIP_AVAILABLE : bool) (file : string)
  : result () * TimetableScheduler :=
  __init__ PYSWIP_AVAILABLE file (mkScheduler "" false None ∅ ∅ ∅ []).

(** *** Generating a schedule *)

Definition place (triple : string * string * string) : py () :=
  let '(course_id, slot_id, room_id) := triple in
  cs <- get courses ;; ts <- get time_slots ;; rs <- get rooms ;;
  if decide (is_Some (cs !! course_id) ∧ is_Some (ts !! slot_id)
             ∧ is_Some (rs !! room_id)) then
    c <- lift (getitem cs course_id) ;;
    t <- lift (getitem ts slot_id) ;;
    r <- lift (getitem rs room_id) ;;
    modify (λ s, set_schedule (schedule s ++ [mkEntry c t r]) s)
  else ret ().

Definition _generate_prolog_schedule : py bool :=
  try_except
    (list_query clear_schedule ;;;
     sols <- list_query generate_optimal_timetable ;;
     match sols with
     | [] => ret false
     | _ :: _ =>
       modify (set_schedule []) ;;;
       for_query get_schedule (λ sol, for_each sol place) ;;;
       ret true
     end)
    (λ _, ret false).

Definition mock_entry (course_id slot_id room_id : string) : py ScheduleEntry :=
  cs <- get courses ;; c <- lift (getitem cs course_id) ;;
  ts <- get time_slots ;; t <- lift (getitem ts slot_id) ;;
  rs <- get rooms ;; r <- lift (getitem rs room_id) ;;
  ret (mkEntry c t r).

Definition _generate_mock_schedule : py bool :=
  e1 <- mock_entry "cs101" "slot3" "r001" ;;
  e2 <- mock_entry "math101" "slot1" "r002" ;;
  e3 <- mock_entry "phy101" "slot5" "r003" ;;
  modify (set_schedule [e1; e2; e3]) ;;;
  ret true.

Definition generate_schedule : py bool :=
  available <- get prolog_available ;;
  if available : bool then _generate_prolog_schedule
  else _generate_mock_schedule.

(** *** Checking a schedule *)

Definition check_conflicts : py (list string) :=
  entries <- get schedule ;;
  lift (conflicts_of entries).

End Scheduler.

Arguments TimetableScheduler KB : clear implicits.
Arguments py KB A : clear implicits.

(** ** Engines used in the examples *)

(** No usable knowledge base: consulting any file raises. *)
Definition no_answers {A} : answers A := mkAnswers [] Exhausted.

Global Instance missing_engine : PrologEngine () := {|
  new_engine := ();
  consult _ _ := Raise PrologError;
  get_course_details kb := (no_answers, kb);
  get_time_details kb := (no_answers, kb);
  get_room_details kb := (no_answers, kb);
  clear_schedule kb := (no_answers, kb);
  generate_optimal_timetable kb := (no_answers, kb);
  get_schedule kb := (no_answers, kb);
|}.

(** A knowledge base given by the answers to its six queries. *)
Record script : Type := mkScript {
  course_facts : list (string * string * string * Z * string);
  time_facts : list (string * string * Z * Z);
  room_facts : list (string * string * Z);
  timetables : list ();
  stored_schedule : list (list (string * string * string));
}.

Definition scripted_engine (file_system : string → option script)
  : PrologEngine script := {|
  new_engine := mkScript [] [] [] [] [];
  consult file _ :=
    match file_system file with
    | Some kb => Ok kb
    | None => Raise PrologError
    end;
  get_course_details kb := (mkAnswers (course_facts kb) Exhausted, kb);
  get_time_details kb := (mkAnswers (time_facts kb) Exhausted, kb);
  get_room_details kb := (mkAnswers (room_facts kb) Exhausted, kb);
  clear_schedule kb := (mkAnswers [()] Exhausted, kb);
  generate_optimal_timetable kb := (mkAnswers (timetables kb) Exhausted, kb);
  get_schedule kb := (mkAnswers (stored_schedule kb) Exhausted, kb);
|}.

(** One teacher, two lessons in two different slots that start together. *)
Definition shared_start_kb : script := {|
  course_facts := [("c1", "Algebra", "Dr. Adams", 1, "classroom");
                   ("c2", "Robotics", "Dr. Adams", 2, "computer_lab")];
  time_facts := [("s1", "monday", 800, 900); ("s2", "monday", 800, 1000)];
  room_facts := [("r1", "classroom", 30); ("r2", "computer_lab", 20)];
  timetables := [()];
  stored_schedule := [[("c1", "s1", "r1"); ("c2", "s2", "r2")]];
|}.

(** A three-hour course, one-hour slots only, and a knowledge base that
    places the course all the same. *)
Definition long_course_kb : script := {|
  course_facts := [("c1", "Studio", "Dr. Adams", 3, "classroom")];
  time_facts := [("s1", "monday", 800, 900); ("s2", "monday", 900, 1000)];
  room_facts := [("r1", "classroom", 30)];
  timetables := [()];
  stored_schedule := [[("c1", "s1", "r1")]];
|}.

(** ** Vocabulary of the statements *)

(** What the scan compares: who is booked, and under which key. *)
Definition teacher_key (e : ScheduleEntry) : string * string :=
  (Course.teacher_name (course e), slot_text e).
Definition room_key (e : ScheduleEntry) : string * string :=
  (Room.id (room e), slot_text e).

(** The same bookings before formatting: who, which day, which start. *)
Definition teacher_booking (e : ScheduleEntry) : string * string * Z :=
  (Course.teacher_name (course e), TimeSlot.day (time_slot e),
   TimeSlot.start_time (time_slot e)).
Definition room_booking (e : ScheduleEntry) : string * string * Z :=
  (Room.id (room e), TimeSlot.day (time_slot e),
   TimeSlot.start_time (time_slot e)).

Definition format_booking (b : string * string * Z) : string * string :=
  (b.1.1, b.1.2 +:+ "_" +:+ pretty b.2).

(** [key] is in the set stored under [who]. *)
Definition booked (slots : gmap string (gset string)) (who key : string) : Prop :=
  key ∈ default ∅ (slots !! who).

Global Instance booked_dec slots who key : Decision (booked slots who key) :=
  decide (key ∈ default ∅ (slots !! who)).

(** The dictionary [slots] holds exactly the bookings listed in [seen]. *)
Definition tracks (slots : gmap string (gset string))
    (seen : list (string * string)) : Prop :=
  ∀ who key, booked slots who key ↔ (who, key) ∈ seen.

(** The messages the scan adds for [entries] when the bookings [seen_t] and
    [seen_r] were met before. *)
Fixpoint report (seen_t seen_r : list (string * string))
    (entries : list ScheduleEntry) : list string :=
  match entries with
  | [] => []
  | e :: rest =>
    (if decide (teacher_key e ∈ seen_t)
     then [teacher_conflict (teacher_key e).1 (teacher_key e).2] else []) ++
    (if decide (room_key e ∈ seen_r)
     then [room_conflict (room_key e).1 (room_key e).2] else []) ++
    report (teacher_key e :: seen_t) (room_key e :: seen_r) rest
  end%list.

(** A string without the separator of [slot_key]. *)
Fixpoint plain (s : string) : Prop :=
  match s with
  | EmptyString => True
  | String a rest => a ≠ "_"%char ∧ plain rest
  end.

(** How often the course [course_id] is scheduled. *)
Definition occurrences (course_id : string) (entries : list ScheduleEntry) : nat :=
  length (filter (λ e, Course.id (course e) = course_id) entries).

(** The two rules [check_conflicts] has no code for. *)
Definition too_long (e : ScheduleEntry) : Prop :=
  TimeSlot.duration (time_slot e) < Course.duration (course e).
Definition wrong_room_type (e : ScheduleEntry) : Prop :=
  Room.room_type (room e) ≠ Course.room_type (course e).

(** Two entries at different positions with the same teacher (room), day and
    start. *)
Definition teacher_double_booked (entries : list ScheduleEntry) (e : ScheduleEntry) : Prop :=
  ∃ i j e', (i < j)%nat ∧ entries !! i = Some e' ∧ entries !! j = Some e ∧
            teacher_booking e' = teacher_booking e.
Definition room_double_booked (entries : list ScheduleEntry) (e : ScheduleEntry) : Prop :=
  ∃ i j e', (i < j)%nat ∧ entries !! i = Some e' ∧ entries !! j = Some e ∧
            room_booking e' = room_booking e.

(** The schedule [_generate_mock_schedule] builds from the mock catalog. *)
Definition mock_schedule : list ScheduleEntry :=
  [ mkEntry (Course.mk "cs101" "Computer Science 101" "t001" "Dr. Smith" 2 "computer_lab")
            (TimeSlot.mk "slot3" "monday" 1000 1200 2)
            (Room.mk "r001" "computer_lab" 30);
    mkEntry (Course.mk "math101" "Calculus I" "t003" "Dr. Brown" 1 "classroom")
            (TimeSlot.mk "slot1" "monday" 800 900 1)
            (Room.mk "r002" "classroom" 40);
    mkEntry (Course.mk "phy101" "Physics I" "t005" "Dr. Wilson" 2 "physics_lab")
            (TimeSlot.mk "slot5" "tuesday" 1000 1200 2)
            (Room.mk "r003" "physics_lab" 20) ].

(** [durationUnits] as the loader derives it. *)
Definition derived_duration (slot : TimeSlot.t) : Prop :=
  TimeSlot.duration slot
  = (TimeSlot.end_time slot - TimeSlot.start_time slot) `div` 100.

Section Vocabulary.
Context {KB : Type} {engine : PrologEngine KB}.

(** [m] keeps the property [I] of the object, whether it returns or raises. *)
Definition keeps {A} (I : TimetableScheduler KB → Prop) (m : py KB A) : Prop :=
  ∀ s, I s → I (m s).2.

(** The catalog of [s'] is the catalog of [s]. *)
Definition same_catalog (s s' : TimetableScheduler KB) : Prop :=
  courses s' = courses s ∧ time_slots s' = time_slots s ∧ rooms s' = rooms s.

(** The object is as [__init__] leaves it when no knowledge base is loaded. *)
Definition mock_mode (s : TimetableScheduler KB) : Prop :=
  prolog_available s = false ∧ courses s = mock_courses ∧
  time_slots s = mock_time_slots ∧ rooms s = mock_rooms.

(** Every course of the catalog is scheduled exactly once. *)
Definition complete (s : TimetableScheduler KB) : Prop :=
  ∀ course_id, is_Some (courses s !! course_id) →
    occurrences course_id (schedule s) = 1%nat.

(** Some course of the catalog is longer than every time slot. *)
Definition has_unplaceable_course (s : TimetableScheduler KB) : Prop :=
  ∃ course_id c, courses s !! course_id = Some c ∧
    ∀ slot_id slot, time_slots s !! slot_id = Some slot →
      TimeSlot.duration slot < Course.duration c.

(** Two objects with the same engine and the same ids in their catalogs;
    the records stored under the ids, durations included, are free. *)
Definition same_ids (s1 s2 : TimetableScheduler KB) : Prop :=
  prolog_available s1 = prolog_available s2 ∧ prolog s1 = prolog s2 ∧
  dom (courses s1) = dom (courses s2) ∧
  dom (time_slots s1) = dom (time_slots s2) ∧
  dom (rooms s1) = dom (rooms s2).
End Vocabulary.

(** ** Objects used in the examples *)

Definition demo_file : string := "timetable_scheduler.pl".

(** [TimetableScheduler()] when pyswip is not installed. *)
Definition demo_scheduler : TimetableScheduler () :=
  (new_scheduler false demo_file).2.

Definition shared_start_engine : PrologEngine script :=
  scripted_engine (λ _, Some shared_start_kb).
Definition shared_start_scheduler : TimetableScheduler script :=
  (new_scheduler (engine := shared_start_engine) true demo_file).2.

Definition long_course_engine : PrologEngine script :=
  scripted_engine (λ _, Some long_course_kb).
Definition long_course_scheduler : TimetableScheduler script :=
  (new_scheduler (engine := long_course_engine) true demo_file).2.

(** The same object with the course cut to one hour. *)
Definition short_course_scheduler : TimetableScheduler script :=
  set_courses
    (<["c1" := Course.mk "c1" "Studio" "" "Dr. Adams" 1 "classroom"]>
       (courses long_course_scheduler))
    long_course_scheduler.

(** A hand-built entry: a two-hour lab course in a one-hour slot, in a
    classroom. *)
Definition misplaced_entry : ScheduleEntry :=
  mkEntry (Course.mk "cs101" "Computer Science 101" "t001" "Dr. Smith" 2 "computer_lab")
          (TimeSlot.mk "slot1" "monday" 800 900 1)
          (Room.mk "r002" "classroom" 40).

(** A hand-built entry whose start has 4301 digits. *)
Definition long_start_entry : ScheduleEntry :=
  mkEntry (Course.mk "cs101" "Computer Science 101" "t001" "Dr. Smith" 2 "computer_lab")
          (TimeSlot.mk "slot1" "monday" (10 ^ 4300) (10 ^ 4300 + 100) 1)
          (Room.mk "r001" "computer_lab" 30).

(** Two lessons of one teacher in one room: monday 8-10 and monday 9-10. *)
Definition early_lesson : ScheduleEntry :=
  mkEntry (Course.mk "cs101" "Computer Science 101" "t001" "Dr. Smith" 2 "computer_lab")
          (TimeSlot.mk "slotA" "monday" 800 1000 2)
          (Room.mk "r001" "computer_lab" 30).
Definition late_lesson : ScheduleEntry :=
  mkEntry (Course.mk "cs102" "Data Structures" "t001" "Dr. Smith" 1 "computer_lab")
          (TimeSlot.mk "slotB" "monday" 900 1000 1)
          (Room.mk "r001" "computer_lab" 30).
(** A third lesson that starts with the first one. *)
Definition same_start_lesson : ScheduleEntry :=
  mkEntry (Course.mk "cs103" "Algorithms" "t001" "Dr. Smith" 1 "computer_lab")
          (TimeSlot.mk "slotC" "monday" 800 900 1)
          (Room.mk "r001" "computer_lab" 30).

(** A knowledge base whose timetable names a course the catalog does not
    have. *)
Definition unknown_course_kb : script := {|
  course_facts := [("c1", "Algebra", "Dr. Adams", 1, "classroom")];
  time_facts := [("s1", "monday", 800, 900)];
  room_facts := [("r1", "classroom", 30)];
  timetables := [()];
  stored_schedule := [[("c9", "s1", "r1")]];
|}.
Definition unknown_course_engine : PrologEngine script :=
  scripted_engine (λ _, Some unknown_course_kb).
Definition unknown_course_scheduler : TimetableScheduler script :=
  (new_scheduler (engine := unknown_course_engine) true demo_file).2.

(** A knowledge base that finds no timetable. *)
Definition infeasible_kb : script := {|
  course_facts := [("c1", "Algebra", "Dr. Adams", 1, "classroom")];
  time_facts := [("s1", "monday", 800, 900)];
  room_facts := [("r1", "classroom", 30)];
  timetables := [];
  stored_schedule := [];
|}.
Definition infeasible_engine : PrologEngine script :=
  scripted_engine (λ _, Some infeasible_kb).
Definition infeasible_scheduler : TimetableScheduler script :=
  (new_scheduler (engine := infeasible_engine) true demo_file).2.

(** A knowledge base that answers twice for the course c1. *)
Definition repeated_course_kb : script := {|
  course_facts := [("c1", "Algebra", "Dr. Adams", 1, "classroom");
                   ("c1", "Algebra II", "Dr. Baker", 2, "classroom")];
  time_facts := [("s1", "monday", 800, 900)];
  room_facts := [("r1", "classroom", 30)];
  timetables := [()];
  stored_schedule := [[("c1", "s1", "r1")]];
|}.
Definition repeated_course_engine : PrologEngine script :=
  scripted_engine (λ _, Some repeated_course_kb).

(** An engine whose [get_room_details] raises after its last answer. *)
Definition failing_rooms_engine : PrologEngine script := {|
  new_engine := mkScript [] [] [] [] [];
  consult _ _ := Ok shared_start_kb;
  get_course_details kb := (mkAnswers (course_facts kb) Exhausted, kb);
  get_time_details kb := (mkAnswers (time_facts kb) Exhausted, kb);
  get_room_details kb := (mkAnswers (room_facts kb) Raised, kb);
  clear_schedule kb := (mkAnswers [()] Exhausted, kb);
  generate_optimal_timetable kb := (mkAnswers (timetables kb) Exhausted, kb);
  get_schedule kb := (mkAnswers (stored_schedule kb) Exhausted, kb);
|}.

(** ** The rest of the module: time formatting and statistics *)

(** [f"{n:02d}"]: the decimal form, zero-padded to two characters; a sign
    counts as a character. *)
Definition pad2 (n : Z) : string :=
  if decide (0 ≤ n ≤ 9)%Z then "0" +:+ pretty n else pretty n.

(** [_format_time]: [divmod(time_int, 100)] formatted as
    [f"{hours:02d}:{minutes:02d}"]. *)
Definition _format_time (time_int : Z) : string :=
  let hours := time_int `div` 100 in
  let minutes := time_int `mod` 100 in
  pad2 hours +:+ ":" +:+ pad2 minutes.

Section Statistics.
Context {KB : Type} {engine : PrologEngine KB}.

Local Notation "x <- m ;; k" := (bind m (λ x, k))
  (at level 100, m at next level, right associativity).

(** [len({f(e) for e in self.schedule})] *)
Definition distinct (ids : list string) : Z :=
  Z.of_nat (size (list_to_set ids : gset string)).

Definition get_statistics : py KB (gmap string Z) :=
  entries <- get schedule ;;
  match entries with
  | [] => ret ∅
  | _ :: _ =>
    cs <- get courses ;;
    scheduled <- get schedule ;;
    rs <- get rooms ;;
    used_rooms <- get schedule ;;
    ts <- get time_slots ;;
    used_slots <- get schedule ;;
    found <- check_conflicts ;;
    ret (<["conflicts" := Z.of_nat (length found)]>
        (<["used_time_slots" :=
             distinct ((λ e, TimeSlot.id (time_slot e)) <$> used_slots)]>
        (<["total_time_slots" := Z.of_nat (size ts)]>
        (<["used_rooms" := distinct ((λ e, Room.id (room e)) <$> used_rooms)]>
        (<["total_rooms" := Z.of_nat (size rs)]>
        (<["scheduled_courses" := Z.of_nat (length scheduled)]>
        (<["total_courses" := Z.of_nat (size cs)]> ∅)))))))
  end.

(** What [place] appends for a triple: the entry built from the three
    records, when the three ids are in the catalog. *)
Definition hydrate (s : TimetableScheduler KB)
    (triple : string * string * string) : option ScheduleEntry :=
  let '(course_id, slot_id, room_id) := triple in
  c ← courses s !! course_id;
  t ← time_slots s !! slot_id;
  r ← rooms s !! room_id;
  Some (mkEntry c t r).

(** The three records of [e] are values of the catalog of [s]. *)
Definition from_catalog (s : TimetableScheduler KB) (e : ScheduleEntry) : Prop :=
  (∃ course_id, courses s !! course_id = Some (course e)) ∧
  (∃ slot_id, time_slots s !! slot_id = Some (time_slot e)) ∧
  (∃ room_id, rooms s !! room_id = Some (room e)).

(** Every record of the catalog is stored under its own id. *)
Definition keyed_by_id (s : TimetableScheduler KB) : Prop :=
  map_Forall (λ k c, Course.id c = k) (courses s) ∧
  map_Forall (λ k t, TimeSlot.id t = k) (time_slots s) ∧
  map_Forall (λ k r, Room.id r = k) (rooms s).

(** The nine ids [_generate_mock_schedule] looks up. *)
Definition mock_ids_present (s : TimetableScheduler KB) : Prop :=
  (is_Some (courses s !! "cs101") ∧ is_Some (time_slots s !! "slot3")
   ∧ is_Some (rooms s !! "r001")) ∧
  (is_Some (courses s !! "math101") ∧ is_Some (time_slots s !! "slot1")
   ∧ is_Some (rooms s !! "r002")) ∧
  (is_Some (courses s !! "phy101") ∧ is_Some (time_slots s !! "slot5")
   ∧ is_Some (rooms s !! "r003")).

(** [m] returns from every object. *)
Definition returns {A} (m : py KB A) : Prop :=
  ∀ s, ∃ a s', m s = (Ok a, s').
End Statistics.

(** The records the loaders build from the answers of the knowledge base. *)
Definition course_of_fact (fact : string * string * string * Z * string) : Course.t :=
  let '(course_id, course_name, teacher, duration, room_type) := fact in
  Course.mk course_id course_name "" teacher duration room_type.
Definition slot_of_fact (fact : string * string * Z * Z) : TimeSlot.t :=
  let '(slot_id, day, start, end_) := fact in
  TimeSlot.mk slot_id day start end_ ((end_ - start) `div` 100).
Definition room_of_fact (fact : string * string * Z) : Room.t :=
  let '(room_id, room_type, capacity) := fact in
  Room.mk room_id room_type capacity.

(** The record stored under [id] after a run of [d[key(x)] = value(x)] over
    [facts]: the one of the last fact whose key is [id]. *)
Definition last_fact {A V} (key : A → string) (value : A → V)
    (facts : list A) (id : string) : option V :=
  value <$> last (filter (λ x, key x = id) facts).

(** ** Strings *)

Lemma plain_pretty_N_go (x : N) (s : string) :
  plain s → plain (pretty_N_go x s).
Proof.
  revert s. induction (N.lt_wf_0 x) as [x _ IH]. intros s Hs.
  destruct (decide (x = 0%N)) as [->|Hx].
  - by rewrite pretty_N_go_0.
  - rewrite pretty_N_go_step by lia.
    apply IH; [apply N.div_lt; lia|].
    split; [|done]. unfold pretty_N_char. repeat case_match; discriminate.
Qed.

Lemma plain_pretty_N (x : N) : plain (pretty x).
Proof.
  unfold pretty, pretty_N. case_decide.
  - by split.
  - by apply plain_pretty_N_go.
Qed.

Lemma plain_pretty_Z (z : Z) : plain (pretty z).
Proof.
  destruct z as [|p|p]; unfold pretty, pretty_Z.
  - by split.
  - apply plain_pretty_N.
  - split; [discriminate|]. apply plain_pretty_N.
Qed.

Lemma append_empty (s : string) : "" +:+ s = s.
Proof. reflexivity. Qed.

Lemma append_String (a : ascii) (s t : string) :
  String a s +:+ t = String a (s +:+ t).
Proof. reflexivity. Qed.

Lemma separator_not_plain (d p : string) : ¬ plain (d +:+ "_" +:+ p).
Proof.
  induction d as [|c d IHd];
    repeat (rewrite append_String || rewrite append_empty).
  - by intros [? _].
  - by intros [_ ?].
Qed.

Lemma separator_unique (d1 d2 p1 p2 : string) :
  plain p1 → plain p2 →
  d1 +:+ "_" +:+ p1 = d2 +:+ "_" +:+ p2 → d1 = d2 ∧ p1 = p2.
Proof.
  revert d2. induction d1 as [|a d1 IH]; intros [|b d2] H1 H2;
    repeat (rewrite append_String || rewrite append_empty);
    intros Heq; simplify_eq.
  - done.
  - destruct (separator_not_plain d2 p2 H1).
  - destruct (separator_not_plain d1 p1 H2).
  - destruct (IH d2 H1 H2) as [-> ->]; done.
Qed.

Global Instance format_booking_inj : Inj (=) (=) format_booking.
Proof.
  intros [[w1 d1] z1] [[w2 d2] z2]. unfold format_booking; simpl.
  intros [= -> Hk].
  apply separator_unique in Hk as [-> Hz]; auto using plain_pretty_Z.
  by apply (inj pretty) in Hz as ->.
Qed.

Lemma teacher_key_format (e : ScheduleEntry) :
  teacher_key e = format_booking (teacher_booking e).
Proof. done. Qed.

Lemma room_key_format (e : ScheduleEntry) :
  room_key e = format_booking (room_booking e).
Proof. done. Qed.

(** ** The scan, one block at a time *)

Lemma booked_empty (who key : string) : ¬ booked ∅ who key.
Proof. unfold booked. rewrite lookup_empty. set_solver. Qed.

Lemma tracks_empty : tracks ∅ [].
Proof.
  intros who key. split; [intros []%booked_empty | by intros ?%elem_of_nil].
Qed.

Lemma booked_insert (slots : gmap string (gset string)) who key w k :
  booked (<[who := default ∅ (slots !! who) ∪ {[key]}]> slots) w k
  ↔ booked slots w k ∨ (w = who ∧ k = key).
Proof.
  unfold booked. destruct (decide (who = w)) as [->|Hne].
  - rewrite lookup_insert_eq. simpl.
    rewrite elem_of_union, elem_of_singleton. tauto.
  - rewrite lookup_insert_ne by done. split; [auto|]. by intros [?|[-> _]].
Qed.

(** The guarded [slots[who]] never misses: [setdefault] just stored the key. *)
Lemma book_eq describe who key found (slots : gmap string (gset string)) :
  book describe who key found slots =
  Ok (if decide (booked slots who key)
      then ((found ++ [describe who key])%list, slots)
      else (found, <[who := default ∅ (slots !! who) ∪ {[key]}]> slots)).
Proof.
  unfold book, setdefault.
  destruct (decide (booked slots who key)) as [Hb|Hb]; unfold booked in Hb;
    destruct (slots !! who) as [held|] eqn:Hwho; simpl in *.
  - by rewrite decide_True.
  - by apply not_elem_of_empty in Hb.
  - rewrite decide_False by done. unfold getitem. by rewrite Hwho.
  - rewrite decide_False by done. unfold getitem.
    rewrite lookup_insert_eq. simpl. by rewrite insert_insert_eq.
Qed.

Lemma tracks_book (slots : gmap string (gset string)) seen who key :
  tracks slots seen →
  tracks (if decide (booked slots who key) then slots
          else <[who := default ∅ (slots !! who) ∪ {[key]}]> slots)
         ((who, key) :: seen).
Proof.
  intros Hseen w k. rewrite elem_of_cons. case_decide as Hb.
  - split.
    + intros ?. right. by apply Hseen.
    + intros [[= -> ->]|?]; [done|by apply Hseen].
  - rewrite booked_insert. split.
    + intros [?|[-> ->]]; [right; by apply Hseen|by left].
    + intros [[= -> ->]|?]; [by right|left; by apply Hseen].
Qed.

Lemma slot_key_eq (e : ScheduleEntry) :
  slot_key e =
  if decide (printable (TimeSlot.start_time (time_slot e)))
  then Ok (slot_text e) else Raise ValueError.
Proof. unfold slot_key, str_int, slot_text. by case_decide. Qed.

(** An entry whose start cannot be formatted stops the scan. *)
Lemma check_entry_unprintable (st : scan) (e : ScheduleEntry) :
  ¬ printable (TimeSlot.start_time (time_slot e)) →
  check_entry st e = Raise ValueError.
Proof.
  intros Hbig. unfold check_entry. rewrite slot_key_eq.
  by rewrite decide_False.
Qed.

Lemma check_entry_report (st : scan) (e : ScheduleEntry) seen_t seen_r :
  printable (TimeSlot.start_time (time_slot e)) →
  tracks (teacher_slots st) seen_t → tracks (room_slots st) seen_r →
  ∃ st', check_entry st e = Ok st' ∧
    conflicts st' = (conflicts st ++
      (if decide (teacher_key e ∈ seen_t)
       then [teacher_conflict (teacher_key e).1 (teacher_key e).2] else []) ++
      (if decide (room_key e ∈ seen_r)
       then [room_conflict (room_key e).1 (room_key e).2] else []))%list ∧
    tracks (teacher_slots st') (teacher_key e :: seen_t) ∧
    tracks (room_slots st') (room_key e :: seen_r).
Proof.
  intros Hprint Ht Hr. unfold check_entry.
  rewrite slot_key_eq, decide_True by done.
  change (Ok (slot_text e) ≫= ?k) with (k (slot_text e)). cbv beta.
  rewrite book_eq.
  pose proof (tracks_book _ _ (Course.teacher_name (course e)) (slot_text e) Ht) as Ht'.
  pose proof (tracks_book _ _ (Room.id (room e)) (slot_text e) Hr) as Hr'.
  pose proof (Ht (Course.teacher_name (course e)) (slot_text e)) as Hbt.
  pose proof (Hr (Room.id (room e)) (slot_text e)) as Hbr.
  unfold teacher_key, room_key in *. simpl.
  destruct (decide (booked (teacher_slots st) _ _)) as [Bt|Bt]; simpl;
    rewrite book_eq;
    destruct (decide (booked (room_slots st) _ _)) as [Br|Br]; simpl;
    eexists; (split; [done|]); simpl;
    repeat case_decide; try tauto;
    rewrite ?app_nil_r, <-?app_assoc; auto.
Qed.

Lemma scan_entries_report (entries : list ScheduleEntry) (st : scan) seen_t seen_r :
  all_printable entries →
  tracks (teacher_slots st) seen_t → tracks (room_slots st) seen_r →
  ∃ st', scan_entries st entries = Ok st' ∧
    conflicts st' = (conflicts st ++ report seen_t seen_r entries)%list.
Proof.
  intros Hprint. revert st seen_t seen_r.
  induction Hprint as [|e rest He _ IH]; intros st seen_t seen_r Ht Hr; simpl.
  - exists st. by rewrite app_nil_r.
  - destruct (check_entry_report st e seen_t seen_r He Ht Hr)
      as (st1 & -> & Hc & Ht1 & Hr1). simpl.
    destruct (IH st1 _ _ Ht1 Hr1) as (st2 & -> & Hc2).
    exists st2. split; [done|]. rewrite Hc2, Hc. by rewrite <-!app_assoc.
Qed.

Lemma scan_entries_unprintable (entries : list ScheduleEntry) (st : scan) seen_t seen_r :
  ¬ all_printable entries →
  tracks (teacher_slots st) seen_t → tracks (room_slots st) seen_r →
  scan_entries st entries = Raise ValueError.
Proof.
  revert st seen_t seen_r.
  induction entries as [|e rest IH]; intros st seen_t seen_r Hbig Ht Hr.
  - destruct Hbig. constructor.
  - cbn [scan_entries].
    destruct (decide (printable (TimeSlot.start_time (time_slot e)))) as [He|He].
    + destruct (check_entry_report st e seen_t seen_r He Ht Hr)
        as (st1 & -> & _ & Ht1 & Hr1).
      cbn [mbind result_bind].
      apply (IH st1 (teacher_key e :: seen_t) (room_key e :: seen_r));
        [|done..].
      intros Hrest. apply Hbig. by constructor.
    + by rewrite check_entry_unprintable.
Qed.

(** The scan computes [report] when every key can be formatted. *)
Lemma conflicts_of_report (entries : list ScheduleEntry) :
  all_printable entries → conflicts_of entries = Ok (report [] [] entries).
Proof.
  intros Hprint. unfold conflicts_of.
  destruct (scan_entries_report entries scan_init [] [] Hprint
              tracks_empty tracks_empty) as (st & -> & Hc).
  simpl. by rewrite Hc.
Qed.

Lemma conflicts_of_unprintable (entries : list ScheduleEntry) :
  ¬ all_printable entries → conflicts_of entries = Raise ValueError.
Proof.
  intros Hbig. unfold conflicts_of.
  by rewrite (scan_entries_unprintable entries scan_init [] [] Hbig
                tracks_empty tracks_empty).
Qed.

(** ** What the report says *)

Lemma report_nil (entries : list ScheduleEntry) seen_t seen_r :
  report seen_t seen_r entries = [] ↔
  (NoDup (teacher_key <$> entries) ∧ ∀ e, e ∈ entries → teacher_key e ∉ seen_t) ∧
  (NoDup (room_key <$> entries) ∧ ∀ e, e ∈ entries → room_key e ∉ seen_r).
Proof.
  revert seen_t seen_r.
  induction entries as [|e rest IH]; intros seen_t seen_r; simpl.
  - split; [|done]. intros _.
    split; (split; [constructor|by intros ? ?%elem_of_nil]).
  - rewrite !app_nil, IH, ?fmap_cons, !NoDup_cons, !list_elem_of_fmap.
    setoid_rewrite elem_of_cons. split.
    + intros (Ht & Hr & [Dt Nt] & [Dr Nr]).
      repeat case_decide; try done. repeat split; try done.
      * intros (e' & Heq & He'). apply (Nt e' He'). left. done.
      * intros e' [->|He'] Hin; [done|]. apply (Nt e' He'). by right.
      * intros (e' & Heq & He'). apply (Nr e' He'). left. done.
      * intros e' [->|He'] Hin; [done|]. apply (Nr e' He'). by right.
    + intros [[[Nt Dt] St] [[Nr Dr] Sr]].
      rewrite !decide_False by auto.
      repeat split; try done.
      * intros e' He' [Heq|Hin]; [|by apply (St e'); auto].
        apply Nt. exists e'. done.
      * intros e' He' [Heq|Hin]; [|by apply (Sr e'); auto].
        apply Nr. exists e'. done.
Qed.

Lemma report_teacher (entries : list ScheduleEntry) seen_t seen_r i e :
  entries !! i = Some e →
  (teacher_key e ∈ seen_t ∨
   ∃ j e', (j < i)%nat ∧ entries !! j = Some e' ∧ teacher_key e' = teacher_key e) →
  teacher_conflict (Course.teacher_name (course e)) (slot_text e)
    ∈ report seen_t seen_r entries.
Proof.
  revert seen_t seen_r i.
  induction entries as [|e0 rest IH]; intros seen_t seen_r [|i] Hi Hseen;
    simplify_eq/=.
  - destruct Hseen as [Hin|(j & ? & ? & _)]; [|lia].
    rewrite decide_True by done. apply elem_of_app. left. by left.
  - rewrite !elem_of_app. right. right. apply (IH _ _ i Hi).
    destruct Hseen as [Hin|([|j] & e' & Hlt & Hj & Heq)]; try simpl in Hj.
    + left. by right.
    + left. injection Hj as ->. rewrite <-Heq. by left.
    + right. exists j, e'. split; [lia|done].
Qed.

Lemma report_room (entries : list ScheduleEntry) seen_t seen_r i e :
  entries !! i = Some e →
  (room_key e ∈ seen_r ∨
   ∃ j e', (j < i)%nat ∧ entries !! j = Some e' ∧ room_key e' = room_key e) →
  room_conflict (Room.id (room e)) (slot_text e)
    ∈ report seen_t seen_r entries.
Proof.
  revert seen_t seen_r i.
  induction entries as [|e0 rest IH]; intros seen_t seen_r [|i] Hi Hseen;
    simplify_eq/=.
  - destruct Hseen as [Hin|(j & ? & ? & _)]; [|lia].
    rewrite (decide_True (P := room_key e ∈ seen_r)) by done.
    rewrite !elem_of_app. right. left. by left.
  - rewrite !elem_of_app. right. right. apply (IH _ _ i Hi).
    destruct Hseen as [Hin|([|j] & e' & Hlt & Hj & Heq)]; try simpl in Hj.
    + left. by right.
    + left. injection Hj as ->. rewrite <-Heq. by left.
    + right. exists j, e'. split; [lia|done].
Qed.

(** ** Properties kept by method bodies *)

Section Kept.
Context {KB : Type} {engine : PrologEngine KB}.
Implicit Types (s : TimetableScheduler KB) (I : TimetableScheduler KB → Prop).

Lemma keeps_ret {A} I (a : A) : keeps I (ret a).
Proof. by intros s. Qed.

Lemma keeps_raise {A} I e : keeps I (raise (A := A) e).
Proof. by intros s. Qed.

Lemma keeps_lift {A} I (r : result A) : keeps I (lift r).
Proof. by intros s. Qed.

Lemma keeps_get {A} I (field : TimetableScheduler KB → A) : keeps I (get field).
Proof. by intros s. Qed.

Lemma keeps_modify I f : (∀ s, I s → I (f s)) → keeps I (modify f).
Proof. intros Hf s Hs. by apply Hf. Qed.

Lemma keeps_bind {A B} I (m : py KB A) (k : A → py KB B) :
  keeps I m → (∀ a, keeps I (k a)) → keeps I (bind m k).
Proof.
  intros Hm Hk s Hs. unfold bind. specialize (Hm s Hs).
  destruct (m s) as [[a|e] s']; simpl in *; [by apply Hk|done].
Qed.

Lemma keeps_try_except {A} I (body : py KB A) handler :
  keeps I body → (∀ e, keeps I (handler e)) → keeps I (try_except body handler).
Proof.
  intros Hm Hk s Hs. unfold try_except. specialize (Hm s Hs).
  destruct (body s) as [[a|e] s']; simpl in *; [done|by apply Hk].
Qed.

Lemma keeps_for_each {A} I (xs : list A) body :
  (∀ a, keeps I (body a)) → keeps I (for_each xs body).
Proof.
  intros Hbody. induction xs as [|x xs IH]; simpl.
  - apply keeps_ret.
  - apply keeps_bind; auto.
Qed.

Lemma keeps_the_prolog I : keeps I the_prolog.
Proof. intros s Hs. unfold the_prolog. by destruct (prolog s). Qed.

Lemma keeps_for_query {A} I (q : KB → answers A * KB) body :
  (∀ kb s, I s → I (set_prolog kb s)) →
  (∀ a, keeps I (body a)) → keeps I (for_query q body).
Proof.
  intros Hkb Hbody. unfold for_query.
  apply keeps_bind; [apply keeps_the_prolog|]. intros kb.
  destruct (q kb) as [ans kb'].
  apply keeps_bind; [apply keeps_modify; auto|]. intros _.
  apply keeps_bind; [by apply keeps_for_each|]. intros _.
  destruct (ended ans); [apply keeps_ret|apply keeps_raise].
Qed.

Lemma keeps_list_query {A} I (q : KB → answers A * KB) :
  (∀ kb s, I s → I (set_prolog kb s)) → keeps I (list_query q).
Proof.
  intros Hkb. unfold list_query.
  apply keeps_bind; [apply keeps_the_prolog|]. intros kb.
  destruct (q kb) as [ans kb'].
  apply keeps_bind; [apply keeps_modify; auto|]. intros _.
  destruct (ended ans); [apply keeps_ret|apply keeps_raise].
Qed.

Lemma keeps_place I triple :
  (∀ l s, I s → I (set_schedule l s)) → keeps I (place triple).
Proof.
  intros Hl. destruct triple as [[c t] r]. unfold place.
  do 3 (apply keeps_bind; [apply keeps_get|]; intros ?).
  case_decide; [|apply keeps_ret].
  do 3 (apply keeps_bind; [apply keeps_lift|]; intros ?).
  apply keeps_modify. auto.
Qed.

Lemma keeps_mock_entry I c t r : keeps I (mock_entry c t r).
Proof.
  unfold mock_entry.
  do 3 (apply keeps_bind; [apply keeps_get|]; intros ?;
        apply keeps_bind; [apply keeps_lift|]; intros ?).
  apply keeps_ret.
Qed.

(** [generate_schedule] writes [self.prolog] and [self.schedule] only. *)
Lemma keeps_generate_schedule I :
  (∀ kb s, I s → I (set_prolog kb s)) →
  (∀ l s, I s → I (set_schedule l s)) →
  keeps I generate_schedule.
Proof.
  intros Hkb Hl. unfold generate_schedule.
  apply keeps_bind; [apply keeps_get|]. intros [].
  - unfold _generate_prolog_schedule.
    apply keeps_try_except; [|intros; apply keeps_ret].
    apply keeps_bind; [by apply keeps_list_query|]. intros _.
    apply keeps_bind; [by apply keeps_list_query|]. intros [|_ _].
    + apply keeps_ret.
    + apply keeps_bind; [apply keeps_modify; auto|]. intros _.
      apply keeps_bind; [|intros; apply keeps_ret].
      apply keeps_for_query; [done|]. intros sol.
      apply keeps_for_each. intros triple. by apply keeps_place.
  - unfold _generate_mock_schedule.
    do 3 (apply keeps_bind; [apply keeps_mock_entry|]; intros ?).
    apply keeps_bind; [apply keeps_modify; auto|]. intros _.
    apply keeps_ret.
Qed.

(** [check_conflicts] writes nothing; it returns the report, or raises when
    a key cannot be formatted. *)
Lemma check_conflicts_eq s :
  check_conflicts s =
  (if decide (all_printable (schedule s))
   then Ok (report [] [] (schedule s)) else Raise ValueError, s).
Proof.
  unfold check_conflicts, bind, get, lift. cbn [fst snd].
  case_decide.
  - by rewrite conflicts_of_report.
  - by rewrite conflicts_of_unprintable.
Qed.

Lemma check_conflicts_printable s :
  all_printable (schedule s) →
  check_conflicts s = (Ok (report [] [] (schedule s)), s).
Proof. intros Hprint. by rewrite check_conflicts_eq, decide_True. Qed.

(** The loaders write the catalog and [self.prolog] only. *)
Lemma keeps_load_mock_data I :
  (∀ s, I s → I (set_courses mock_courses s)) →
  (∀ s, I s → I (set_time_slots mock_time_slots s)) →
  (∀ s, I s → I (set_rooms mock_rooms s)) →
  keeps I _load_mock_data.
Proof.
  intros Hc Ht Hr. unfold _load_mock_data.
  repeat (apply keeps_bind; [by apply keeps_modify|]; intros _).
  by apply keeps_modify.
Qed.

Lemma keeps_load_from_prolog I :
  (∀ kb s, I s → I (set_prolog kb s)) →
  (∀ d s, I s → I (set_courses d s)) →
  (∀ id day start end_ s, I s → I (set_time_slots
     (<[id := TimeSlot.mk id day start end_ ((end_ - start) `div` 100)]>
        (time_slots s)) s)) →
  (∀ s, I s → I (set_time_slots mock_time_slots s)) →
  (∀ d s, I s → I (set_rooms d s)) →
  keeps I _load_from_prolog.
Proof.
  intros Hkb Hc Ht Hm Hr. unfold _load_from_prolog.
  apply keeps_try_except; [|intros _; apply keeps_load_mock_data; auto].
  apply keeps_bind; [|intros _; apply keeps_bind; [|intros _]];
    (apply keeps_for_query; [done|]).
  - intros [[[[? ?] ?] ?] ?]. apply keeps_modify. auto.
  - intros [[[? ?] ?] ?]. apply keeps_modify. auto.
  - intros [[? ?] ?]. apply keeps_modify. auto.
Qed.
End Kept.

(** ** The catalog after [__init__] *)

Lemma mock_time_slots_derived :
  map_Forall (λ _, derived_duration) mock_time_slots.
Proof.
  unfold mock_time_slots.
  repeat (apply map_Forall_insert_2; [reflexivity|]).
  apply map_Forall_empty.
Qed.

Section Construction.
Context {KB : Type} {engine : PrologEngine KB}.
Implicit Types (s : TimetableScheduler KB) (I : TimetableScheduler KB → Prop).

(** A property that holds of the blank object and survives every write of
    the constructor and the loaders holds of the constructed object. *)
Lemma keeps_init I PYSWIP file :
  (∀ s, I s → I (mkScheduler file false None ∅ ∅ ∅ [])) →
  (∀ kb s, I s → I (set_prolog kb s)) →
  (∀ s, I s → I (set_prolog_available true s)) →
  keeps I _load_from_prolog → keeps I _load_mock_data →
  keeps I (__init__ PYSWIP file).
Proof.
  intros Hblank Hkb Hav Hprolog Hmock. unfold __init__.
  apply keeps_bind; [by apply keeps_modify|]. intros _.
  apply keeps_bind.
  - destruct PYSWIP; [|apply keeps_ret].
    apply keeps_bind; [apply keeps_modify; auto|]. intros _.
    apply keeps_try_except; [|intros; apply keeps_ret].
    apply keeps_bind; [apply keeps_the_prolog|]. intros kb.
    apply keeps_bind; [apply keeps_lift|]. intros kb'.
    apply keeps_bind; [apply keeps_modify; auto|]. intros _.
    apply keeps_modify; auto.
  - intros _. unfold _load_data.
    apply keeps_bind; [apply keeps_get|]. by intros [].
Qed.

Lemma init_slots_derived PYSWIP file :
  map_Forall (λ _, derived_duration) (time_slots (new_scheduler PYSWIP file).2).
Proof.
  pose (I := λ s, map_Forall (λ _, derived_duration) (time_slots s)).
  assert (keeps I (__init__ PYSWIP file)) as Hinit.
  { apply keeps_init.
    - intros _ _. apply map_Forall_empty.
    - by intros kb s Hs.
    - by intros s Hs.
    - apply keeps_load_from_prolog.
      + by intros kb s Hs.
      + by intros d s Hs.
      + intros id day start end_ s Hs. by apply map_Forall_insert_2.
      + intros s _. apply mock_time_slots_derived.
      + by intros d s Hs.
    - apply keeps_load_mock_data.
      + by intros s Hs.
      + intros s _. apply mock_time_slots_derived.
      + by intros s Hs. }
  apply Hinit. apply map_Forall_empty.
Qed.

(** Without a loaded knowledge base the constructor installs the mock
    catalog. *)
Lemma init_mock_mode PYSWIP file :
  prolog_available (new_scheduler PYSWIP file).2 = false →
  mock_mode (new_scheduler PYSWIP file).2.
Proof.
  assert (keeps (λ s : TimetableScheduler KB, prolog_available s = true)
            _load_from_prolog) as Hkeep.
  { apply keeps_load_from_prolog; done. }
  unfold new_scheduler, __init__, bind, modify. simpl.
  destruct PYSWIP; simpl; [|done].
  unfold try_except, bind, the_prolog, lift, modify. simpl.
  destruct (consult file new_engine) as [kb|e]; simpl; [|done].
  unfold _load_data, bind, get. simpl. intros Hfalse.
  match type of Hfalse with
  | prolog_available (_load_from_prolog ?s0).2 = false =>
      specialize (Hkeep s0 eq_refl)
  end.
  congruence.
Qed.
End Construction.

(** ** What decides the outcome of a generation *)

Lemma lookup_same_dom {V W} (d1 : gmap string V) (d2 : gmap string W) k :
  dom d1 = dom d2 → is_Some (d1 !! k) ↔ is_Some (d2 !! k).
Proof. intros Hdom. by rewrite <-!elem_of_dom, Hdom. Qed.

Lemma getitem_same_dom {V W} (d1 : gmap string V) (d2 : gmap string W) k :
  dom d1 = dom d2 →
  (∃ v w, getitem d1 k = Ok v ∧ getitem d2 k = Ok w)
  ∨ (getitem d1 k = Raise (KeyError k) ∧ getitem d2 k = Raise (KeyError k)).
Proof.
  intros Hdom. pose proof (lookup_same_dom d1 d2 k Hdom) as Hk.
  unfold getitem.
  destruct (d1 !! k) as [v|], (d2 !! k) as [w|]; eauto.
  - destruct Hk as [Hk _]. destruct Hk as [? [=]]. eauto.
  - destruct Hk as [_ Hk]. destruct Hk as [? [=]]. eauto.
Qed.

Section Outcome.
Context {KB : Type} {engine : PrologEngine KB}.
Implicit Types (s : TimetableScheduler KB).

Lemma generate_mock s :
  mock_mode s → generate_schedule s = (Ok true, set_schedule mock_schedule s).
Proof.
  destruct s as [f a kb cs ts rs l]. unfold mock_mode. simpl.
  intros (-> & -> & -> & ->). reflexivity.
Qed.

Lemma place_returns triple s : ∃ s', place triple s = (Ok (), s').
Proof.
  destruct triple as [[c t] r]. unfold place, bind, get. simpl.
  case_decide as Hin; [|unfold ret; eauto].
  destruct Hin as ([x Hx] & [y Hy] & [z Hz]).
  unfold lift, getitem. rewrite Hx, Hy, Hz. simpl. unfold modify. eauto.
Qed.

Lemma for_each_returns {A} (xs : list A) body s :
  (∀ a s, ∃ s', body a s = (Ok (), s')) →
  ∃ s', for_each xs body s = (Ok (), s').
Proof.
  intros Hbody. revert s. induction xs as [|x xs IH]; intros s; simpl.
  - unfold ret. eauto.
  - unfold bind. destruct (Hbody x s) as [s' ->]. apply IH.
Qed.

(** A loop over a query whose body cannot raise ends as the query ends. *)
Lemma for_query_result {A} (q : KB → answers A * KB) body s :
  (∀ a s, ∃ s', body a s = (Ok (), s')) →
  (for_query q body s).1 =
  match prolog s with
  | None => Raise (AttributeError "prolog")
  | Some kb =>
    match ended (q kb).1 with
    | Exhausted => Ok ()
    | Raised => Raise PrologError
    end
  end.
Proof.
  intros Hbody. unfold for_query, bind, the_prolog.
  destruct (prolog s) as [kb|]; [|done].
  destruct (q kb) as [ans kb']. simpl.
  destruct (for_each_returns (solutions ans) body
              (set_prolog (Some kb') s) Hbody) as [s' ->].
  by destruct (ended ans).
Qed.

Lemma list_query_eq {A} (q : KB → answers A * KB) s :
  list_query q s =
  match prolog s with
  | None => (Raise (AttributeError "prolog"), s)
  | Some kb =>
    (match ended (q kb).1 with
     | Exhausted => Ok (solutions (q kb).1)
     | Raised => Raise PrologError
     end, set_prolog (Some (q kb).2) s)
  end.
Proof.
  unfold list_query, bind, the_prolog.
  destruct (prolog s) as [kb|]; [|done].
  destruct (q kb) as [ans kb']. simpl. by destruct (ended ans).
Qed.

(** In Prolog mode the returned Boolean is a function of the engine. *)
Lemma generate_prolog_result s1 s2 :
  prolog s1 = prolog s2 →
  (_generate_prolog_schedule s1).1 = (_generate_prolog_schedule s2).1.
Proof.
  intros Heq. unfold _generate_prolog_schedule, try_except, bind.
  rewrite !list_query_eq, Heq.
  destruct (prolog s2) as [kb|]; [|done].
  destruct (ended (clear_schedule kb).1); [|done].
  rewrite !list_query_eq. simpl.
  destruct (ended (generate_optimal_timetable (clear_schedule kb).2).1);
    [|done].
  destruct (solutions (generate_optimal_timetable (clear_schedule kb).2).1);
    [done|].
  match goal with
  | |- context [for_query get_schedule ?body ?sa] =>
    match goal with
    | |- context [for_query get_schedule body ?sb] =>
      assert_fails (constr_eq sa sb);
      pose proof (for_query_result get_schedule body sa) as Ha;
      pose proof (for_query_result get_schedule body sb) as Hb;
      destruct (for_query get_schedule body sa) as [ra sa'];
      destruct (for_query get_schedule body sb) as [rb sb']
    end
  end.
  simpl in Ha, Hb.
  rewrite Ha, Hb by (intros; apply for_each_returns, place_returns).
  by destruct (ended _).

Qed.

Lemma mock_entry_same_ids s1 s2 c t r :
  same_ids s1 s2 →
  (∃ e1 e2, mock_entry c t r s1 = (Ok e1, s1) ∧ mock_entry c t r s2 = (Ok e2, s2))
  ∨ (∃ x, mock_entry c t r s1 = (Raise x, s1) ∧ mock_entry c t r s2 = (Raise x, s2)).
Proof.
  intros (_ & _ & Hc & Ht & Hr).
  unfold mock_entry, bind, get, lift, ret. simpl.
  destruct (getitem_same_dom _ _ c Hc) as [(? & ? & -> & ->)|[-> ->]];
    [|by eauto].
  destruct (getitem_same_dom _ _ t Ht) as [(? & ? & -> & ->)|[-> ->]];
    [|by eauto].
  destruct (getitem_same_dom _ _ r Hr) as [(? & ? & -> & ->)|[-> ->]];
    by eauto.
Qed.

Lemma generate_mock_result s1 s2 :
  same_ids s1 s2 →
  (_generate_mock_schedule s1).1 = (_generate_mock_schedule s2).1.
Proof.
  intros Hids. unfold _generate_mock_schedule.
  unfold bind at 1 5.
  destruct (mock_entry_same_ids s1 s2 "cs101" "slot3" "r001" Hids)
    as [(? & ? & -> & ->)|(? & -> & ->)]; [|done].
  unfold bind at 1 4.
  destruct (mock_entry_same_ids s1 s2 "math101" "slot1" "r002" Hids)
    as [(? & ? & -> & ->)|(? & -> & ->)]; [|done].
  unfold bind at 1 3.
  destruct (mock_entry_same_ids s1 s2 "phy101" "slot5" "r003" Hids)
    as [(? & ? & -> & ->)|(? & -> & ->)]; done.
Qed.
End Outcome.

(** ** Keys that can be formatted *)

Lemma printable_small (n : Z) : Z.abs n < 10 ^ 4 → printable n.
Proof.
  intros Hn. unfold printable, int_max_str_digits.
  eapply Z.lt_trans; [exact Hn|]. by apply Z.pow_lt_mono_r.
Qed.

Lemma not_printable_power : ¬ printable (10 ^ 4300).
Proof.
  unfold printable, int_max_str_digits.
  rewrite Z.abs_eq by (by apply Z.pow_nonneg). apply Z.lt_irrefl.
Qed.

Lemma mock_schedule_printable : all_printable mock_schedule.
Proof. repeat constructor; by apply printable_small. Qed.

(** ** Properties of the scheduler *)

Section Properties.
Context {KB : Type} {engine : PrologEngine KB}.
Implicit Types (s : TimetableScheduler KB).

(** C4, as the code has it: [check_conflicts] fails in one way only.  For
    every scheduler object and every list of entries (engine-produced,
    hand-built or empty) whose start times have at most 4300 decimal digits
    it returns a list of conflict descriptions, the guarded dictionary reads
    of the scan never missing; when some start time is longer, formatting the
    key raises ValueError. *)
Theorem check_conflicts_fails_only_on_long_start s (entries : list ScheduleEntry) :
  (all_printable entries →
   ∃ found, check_conflicts (set_schedule entries s)
            = (Ok found, set_schedule entries s))
  ∧ (¬ all_printable entries →
     check_conflicts (set_schedule entries s)
     = (Raise ValueError, set_schedule entries s)).
Proof.
  rewrite check_conflicts_eq. cbn [schedule set_schedule].
  split; intros Hprint.
  - rewrite decide_True by done. eauto.
  - by rewrite decide_False.
Qed.

(** C5: two successive calls of [check_conflicts] return the same list, and
    each leaves the object (schedule and catalog included) as it was. *)
Theorem check_conflicts_repeatable s :
  let '(first, s1) := check_conflicts s in
  let '(second, s2) := check_conflicts s1 in
  second = first ∧ s1 = s ∧ s2 = s.
Proof. rewrite !check_conflicts_eq. done. Qed.

(** C7: in the catalog [__init__] loads, from the knowledge base or from the
    mock data, every time slot has
    [duration = (end_time - start_time) // 100]. *)
Theorem loaded_slot_duration PYSWIP file slot_id slot :
  time_slots (new_scheduler PYSWIP file).2 !! slot_id = Some slot →
  TimeSlot.duration slot
  = (TimeSlot.end_time slot - TimeSlot.start_time slot) `div` 100.
Proof. intros Hslot. by apply (init_slots_derived PYSWIP file slot_id). Qed.

(** C8: neither [generate_schedule] nor [check_conflicts] changes the
    catalog: courses, time slots and rooms are the same dictionaries, with
    the same records, after the call as before, whether the call returns or
    raises. *)
Theorem catalog_never_mutated s :
  same_catalog s (generate_schedule s).2 ∧ same_catalog s (check_conflicts s).2.
Proof.
  split.
  - by apply (keeps_generate_schedule (same_catalog s)).
  - by rewrite check_conflicts_eq.
Qed.

(** C9, as the code has it: [check_conflicts] returns the empty list exactly
    when every start time can be formatted (at most 4300 decimal digits), the
    (teacher_name, day, start_time) triples of the entries are pairwise
    distinct and so are the (room id, day, start_time) triples.  Only the day
    and the start matter: two entries whose slots start at different,
    formattable times are never in conflict, however their time ranges
    overlap. *)
Theorem no_conflicts_iff_distinct_printable_bookings s :
  ((check_conflicts s).1 = Ok []
   ↔ all_printable (schedule s)
     ∧ NoDup (teacher_booking <$> schedule s)
     ∧ NoDup (room_booking <$> schedule s))
  ∧ (∀ e1 e2,
       printable (TimeSlot.start_time (time_slot e1)) →
       printable (TimeSlot.start_time (time_slot e2)) →
       TimeSlot.start_time (time_slot e1) ≠ TimeSlot.start_time (time_slot e2) →
       (check_conflicts (set_schedule [e1; e2] s)).1 = Ok []).
Proof.
  assert (∀ entries, report [] [] entries = []
            ↔ NoDup (teacher_booking <$> entries)
              ∧ NoDup (room_booking <$> entries)) as Hiff.
  { intros entries. rewrite report_nil.
    rewrite <-(NoDup_fmap format_booking (teacher_booking <$> entries)).
    rewrite <-(NoDup_fmap format_booking (room_booking <$> entries)).
    rewrite <-!list_fmap_compose.
    split; [by intros [[? _] [? _]]|].
    intros [? ?]. by split; (split; [|intros ? _ ?%elem_of_nil]). }
  split.
  - rewrite check_conflicts_eq. cbn [fst]. case_decide as Hprint.
    + rewrite <-Hiff. split; [by intros [= ->]|by intros [_ ->]].
    + split; [done|]. by intros [? _].
  - intros e1 e2 H1 H2 Hstart. rewrite check_conflicts_printable.
    + cbn [fst schedule set_schedule]. f_equal. apply Hiff.
      rewrite !fmap_cons, !fmap_nil.
      split; apply NoDup_cons; (split; [|apply NoDup_singleton]);
        intros Heq%list_elem_of_singleton; apply Hstart;
        unfold teacher_booking, room_booking in Heq; congruence.
    + cbn [schedule set_schedule]. by repeat constructor.
Qed.

(** C10: with no knowledge base loaded, every call of [generate_schedule]
    returns true and replaces whatever schedule the object holds by the
    same three entries (cs101 in slot3/r001, math101 in slot1/r002, phy101 in
    slot5/r003); a second call leaves the object as the first left it. *)
Theorem mock_generation_deterministic PYSWIP file (entries : list ScheduleEntry) :
  let s0 := (new_scheduler PYSWIP file).2 in
  prolog_available s0 = false →
  generate_schedule (set_schedule entries s0)
    = (Ok true, set_schedule mock_schedule s0)
  ∧ generate_schedule (set_schedule mock_schedule s0)
    = (Ok true, set_schedule mock_schedule s0).
Proof.
  intros s0 Hmock%init_mock_mode.
  split; by rewrite generate_mock.
Qed.

(** C1, as the code has it: with no knowledge base loaded [generate_schedule]
    succeeds, and in the resulting schedule every course of the catalog
    appears at most once; on the five-course catalog the schedule has three
    entries, cs101, math101 and phy101 once each, cs102 and math102 not at
    all. *)
Theorem mock_schedule_at_most_once PYSWIP file (entries : list ScheduleEntry) :
  let s0 := (new_scheduler PYSWIP file).2 in
  prolog_available s0 = false →
  ∃ s1, generate_schedule (set_schedule entries s0) = (Ok true, s1) ∧
    (∀ course_id, is_Some (courses s1 !! course_id) →
       (occurrences course_id (schedule s1) ≤ 1)%nat) ∧
    occurrences "cs101" (schedule s1) = 1%nat ∧
    occurrences "math101" (schedule s1) = 1%nat ∧
    occurrences "phy101" (schedule s1) = 1%nat ∧
    occurrences "cs102" (schedule s1) = 0%nat ∧
    occurrences "math102" (schedule s1) = 0%nat ∧
    size (courses s1) = 5%nat ∧ length (schedule s1) = 3%nat.
Proof.
  intros s0 Hmock%init_mock_mode. fold s0 in Hmock. clearbody s0.
  exists (set_schedule mock_schedule s0).
  split; [by rewrite generate_mock|].
  destruct Hmock as (_ & Hc & _ & _).
  cbn [courses schedule set_schedule]. rewrite Hc.
  split; [|by vm_compute].
  intros course_id _. unfold occurrences, mock_schedule.
  rewrite !filter_cons, filter_nil. simpl.
  repeat case_decide; simplify_eq; simpl; lia.
Qed.

(** C2, as the code has it: with no knowledge base loaded, [generate_schedule]
    succeeds and [check_conflicts] on the schedule it produced returns the
    empty list. *)
Theorem mock_schedule_has_no_conflicts PYSWIP file (entries : list ScheduleEntry) :
  let s0 := (new_scheduler PYSWIP file).2 in
  prolog_available s0 = false →
  ∃ s1, generate_schedule (set_schedule entries s0) = (Ok true, s1) ∧
        check_conflicts s1 = (Ok [], s1).
Proof.
  intros s0 Hmock%init_mock_mode.
  exists (set_schedule mock_schedule s0).
  split; [by rewrite generate_mock|].
  rewrite check_conflicts_printable by apply mock_schedule_printable.
  cbn [schedule set_schedule].
  assert (report [] [] mock_schedule = []) as -> by (by vm_compute).
  done.
Qed.

(** C3, as the code has it: [check_conflicts] reports the two kinds of breach it
    scans for.  In a schedule whose start times can be formatted (at most
    4300 decimal digits), when an entry has the teacher (the room), the day
    and the start of an earlier entry, the returned list is not empty and
    holds the message naming that teacher (room) and slot key. *)
Theorem printable_double_bookings_reported s e :
  all_printable (schedule s) →
  teacher_double_booked (schedule s) e ∨ room_double_booked (schedule s) e →
  ∃ found, check_conflicts s = (Ok found, s) ∧ found ≠ [] ∧
    (teacher_double_booked (schedule s) e →
       teacher_conflict (Course.teacher_name (course e)) (slot_text e) ∈ found) ∧
    (room_double_booked (schedule s) e →
       room_conflict (Room.id (room e)) (slot_text e) ∈ found).
Proof.
  intros Hprint Hbooked. exists (report [] [] (schedule s)).
  assert (teacher_double_booked (schedule s) e →
          teacher_conflict (Course.teacher_name (course e)) (slot_text e)
            ∈ report [] [] (schedule s)) as Ht.
  { intros (i & j & e' & Hlt & Hi & Hj & Heq).
    apply (report_teacher _ _ _ j e Hj). right. exists i, e'.
    by rewrite !teacher_key_format, Heq. }
  assert (room_double_booked (schedule s) e →
          room_conflict (Room.id (room e)) (slot_text e)
            ∈ report [] [] (schedule s)) as Hr.
  { intros (i & j & e' & Hlt & Hi & Hj & Heq).
    apply (report_room _ _ _ j e Hj). right. exists i, e'.
    by rewrite !room_key_format, Heq. }
  split; [by apply check_conflicts_printable|]. split; [|done].
  intros Hnil. rewrite Hnil in Ht, Hr.
  destruct Hbooked as [H|H]; [apply Ht in H|apply Hr in H];
    by apply elem_of_nil in H.
Qed.

(** C6, as the code has it: [generate_schedule] never looks at durations.  Two
    objects with the same engine and the same ids in their catalogs get the
    same answer (the same Boolean, or the same exception), whatever the
    durations of their courses and slots: a course longer than every slot
    changes nothing. *)
Theorem generation_ignores_durations s1 s2 :
  same_ids s1 s2 → (generate_schedule s1).1 = (generate_schedule s2).1.
Proof.
  intros Hids. pose proof Hids as (Hav & Hkb & _).
  unfold generate_schedule, bind, get. simpl. rewrite Hav.
  destruct (prolog_available s2).
  - by apply generate_prolog_result.
  - by apply generate_mock_result.
Qed.
End Properties.

(** ** Concrete runs *)

(** C1, counterexample: the scheduler built without pyswip generates
    successfully, yet cs102 is in the catalog and not in the schedule, which
    has three entries for five courses. *)
Lemma completeness_fails_in_mock_mode :
  ∃ s1, generate_schedule demo_scheduler = (Ok true, s1) ∧
        ¬ complete s1 ∧
        size (courses s1) = 5%nat ∧ length (schedule s1) = 3%nat.
Proof.
  exists (set_schedule mock_schedule demo_scheduler).
  split; [reflexivity|]. split; [|by vm_compute].
  intros Hcomplete.
  assert (is_Some (courses (set_schedule mock_schedule demo_scheduler) !! "cs102"))
    as Hcs102 by (vm_compute; eauto).
  apply Hcomplete in Hcs102. vm_compute in Hcs102. discriminate.
Qed.

Lemma mock_schedule_at_most_once_witness :
  prolog_available demo_scheduler = false ∧
  ∃ s1, generate_schedule (set_schedule [misplaced_entry] demo_scheduler)
        = (Ok true, s1) ∧
    (∀ course_id, is_Some (courses s1 !! course_id) →
       (occurrences course_id (schedule s1) ≤ 1)%nat) ∧
    occurrences "cs101" (schedule s1) = 1%nat ∧
    occurrences "math101" (schedule s1) = 1%nat ∧
    occurrences "phy101" (schedule s1) = 1%nat ∧
    occurrences "cs102" (schedule s1) = 0%nat ∧
    occurrences "math102" (schedule s1) = 0%nat ∧
    size (courses s1) = 5%nat ∧ length (schedule s1) = 3%nat.
Proof.
  split; [reflexivity|].
  apply (mock_schedule_at_most_once false demo_file [misplaced_entry]).
  reflexivity.
Defined.

(** C2, counterexample: a knowledge base places two lessons of Dr. Adams in
    two different slots that both start on monday at 800.  Generation
    succeeds; every course is scheduled once, in a slot long enough and a room
    of the right type, and no slot is used twice; [check_conflicts] reports a
    clash. *)
Lemma generated_schedule_with_conflict :
  ∃ s1, generate_schedule (engine := shared_start_engine) shared_start_scheduler
        = (Ok true, s1) ∧
        complete s1 ∧
        Forall (λ e, ¬ too_long e ∧ ¬ wrong_room_type e) (schedule s1) ∧
        NoDup ((λ e, TimeSlot.id (time_slot e)) <$> schedule s1) ∧
        check_conflicts s1
        = (Ok ["Teacher Dr. Adams has overlapping classes at monday_800"], s1).
Proof.
  exists (generate_schedule (engine := shared_start_engine)
            shared_start_scheduler).2.
  split; [vm_compute; reflexivity|].
  split; [|split; [|split; [|vm_compute; reflexivity]]].
  - intros course_id Hin.
    replace (courses (generate_schedule (engine := shared_start_engine)
                        shared_start_scheduler).2)
      with (<["c1" := Course.mk "c1" "Algebra" "" "Dr. Adams" 1 "classroom"]>
              (<["c2" := Course.mk "c2" "Robotics" "" "Dr. Adams" 2 "computer_lab"]>
                 (∅ : gmap string Course.t)))
      in Hin by (vm_compute; reflexivity).
    apply elem_of_dom in Hin. rewrite !dom_insert_L, dom_empty_L in Hin.
    apply elem_of_union in Hin as [->%elem_of_singleton|Hin];
      [by vm_compute|].
    apply elem_of_union in Hin as [->%elem_of_singleton|Hin];
      [by vm_compute|].
    by apply not_elem_of_empty in Hin.
  - simpl. repeat (apply Forall_cons; split); try apply Forall_nil; try done.
    all: unfold too_long, wrong_room_type; simpl.
    all: split; [vm_compute; discriminate|intros Hne; by apply Hne].
  - simpl. apply NoDup_cons. split; [|apply NoDup_singleton].
    by intros [=]%list_elem_of_singleton.
Qed.

Lemma mock_schedule_has_no_conflicts_witness :
  prolog_available demo_scheduler = false ∧
  ∃ s1, generate_schedule (set_schedule [misplaced_entry] demo_scheduler)
        = (Ok true, s1) ∧
        check_conflicts s1 = (Ok [], s1).
Proof.
  split; [reflexivity|].
  apply (mock_schedule_has_no_conflicts false demo_file [misplaced_entry]).
  reflexivity.
Defined.

(** C3, counterexample: a schedule whose only entry breaks the duration rule
    and the room-type rule gets an empty report. *)
Lemma mismatches_not_reported :
  too_long misplaced_entry ∧ wrong_room_type misplaced_entry ∧
  check_conflicts (set_schedule [misplaced_entry] demo_scheduler)
  = (Ok [], set_schedule [misplaced_entry] demo_scheduler).
Proof.
  split; [by vm_compute|]. split; [by vm_compute|]. by vm_compute.
Qed.

Lemma printable_double_bookings_reported_witness :
  all_printable [early_lesson; same_start_lesson] ∧
  (teacher_double_booked [early_lesson; same_start_lesson] same_start_lesson ∨
   room_double_booked [early_lesson; same_start_lesson] same_start_lesson) ∧
  ∃ found,
    check_conflicts (set_schedule [early_lesson; same_start_lesson] demo_scheduler)
    = (Ok found, set_schedule [early_lesson; same_start_lesson] demo_scheduler) ∧
    found ≠ [] ∧
    (teacher_double_booked [early_lesson; same_start_lesson] same_start_lesson →
       teacher_conflict "Dr. Smith" "monday_800" ∈ found) ∧
    (room_double_booked [early_lesson; same_start_lesson] same_start_lesson →
       room_conflict "r001" "monday_800" ∈ found).
Proof.
  assert (all_printable [early_lesson; same_start_lesson]) as Hprint.
  { repeat constructor; by apply printable_small. }
  assert (teacher_double_booked [early_lesson; same_start_lesson] same_start_lesson)
    as Hclash.
  { exists 0%nat, 1%nat, early_lesson. repeat split. lia. }
  split; [done|]. split; [by left|].
  apply (printable_double_bookings_reported
           (set_schedule [early_lesson; same_start_lesson] demo_scheduler)
           same_start_lesson); [done|by left].
Defined.

(** C4, counterexample: a schedule with one hand-built entry whose start has
    4301 digits; [check_conflicts] raises ValueError. *)
Lemma check_conflicts_raises_on_long_start :
  check_conflicts (set_schedule [long_start_entry] demo_scheduler)
  = (Raise ValueError, set_schedule [long_start_entry] demo_scheduler).
Proof.
  rewrite check_conflicts_eq. cbn [schedule set_schedule].
  rewrite decide_False; [done|].
  intros Hprint. inversion Hprint as [|?? Hstart]. subst.
  by apply not_printable_power in Hstart.
Qed.

Lemma check_conflicts_fails_only_on_long_start_witness :
  all_printable [early_lesson; late_lesson] ∧
  ∃ found, check_conflicts (set_schedule [early_lesson; late_lesson] demo_scheduler)
           = (Ok found, set_schedule [early_lesson; late_lesson] demo_scheduler).
Proof.
  assert (all_printable [early_lesson; late_lesson]) as Hprint.
  { repeat constructor; by apply printable_small. }
  split; [done|].
  exact (proj1 (check_conflicts_fails_only_on_long_start demo_scheduler
                  [early_lesson; late_lesson]) Hprint).
Defined.

(** C9, counterexample: the single entry of this schedule has bookings that
    are trivially distinct, and [check_conflicts] does not return the empty
    list: it raises. *)
Lemma distinct_bookings_without_empty_list :
  NoDup (teacher_booking <$> [long_start_entry]) ∧
  NoDup (room_booking <$> [long_start_entry]) ∧
  (check_conflicts (set_schedule [long_start_entry] demo_scheduler)).1
  = Raise ValueError ∧
  (check_conflicts (set_schedule [long_start_entry] demo_scheduler)).1 ≠ Ok [].
Proof.
  assert ((check_conflicts (set_schedule [long_start_entry] demo_scheduler)).1
          = Raise ValueError) as Hraise.
  { rewrite check_conflicts_eq. cbn [fst schedule set_schedule].
    rewrite decide_False; [done|].
    intros Hprint. inversion Hprint as [|?? Hstart]. subst.
    by apply not_printable_power in Hstart. }
  split; [apply NoDup_singleton|]. split; [apply NoDup_singleton|].
  split; [done|]. by rewrite Hraise.
Qed.

(** C6, counterexample: the catalog holds a three-hour course and one-hour
    slots only; the knowledge base answers with a timetable, and
    [generate_schedule] returns true with that course scheduled. *)
Lemma unplaceable_course_scheduled :
  has_unplaceable_course long_course_scheduler ∧
  ∃ s1, generate_schedule (engine := long_course_engine) long_course_scheduler
        = (Ok true, s1) ∧
        ∃ e, schedule s1 = [e] ∧ too_long e.
Proof.
  split.
  - exists "c1", (Course.mk "c1" "Studio" "" "Dr. Adams" 3 "classroom").
    split; [reflexivity|].
    change (map_Forall (λ _ slot, TimeSlot.duration slot < 3)
              (time_slots long_course_scheduler)).
    replace (time_slots long_course_scheduler)
      with (<["s1" := TimeSlot.mk "s1" "monday" 800 900 1]>
              (<["s2" := TimeSlot.mk "s2" "monday" 900 1000 1]>
                 (∅ : gmap string TimeSlot.t)))
      by (by vm_compute).
    repeat (apply map_Forall_insert_2; [reflexivity|]).
    apply map_Forall_empty.
  - exists (generate_schedule (engine := long_course_engine)
              long_course_scheduler).2.
    split; [vm_compute; reflexivity|].
    eexists. split; [vm_compute; reflexivity|]. by vm_compute.
Qed.

Lemma generation_ignores_durations_witness :
  same_ids long_course_scheduler short_course_scheduler ∧
  (generate_schedule (engine := long_course_engine) long_course_scheduler).1
  = (generate_schedule (engine := long_course_engine) short_course_scheduler).1.
Proof.
  assert (same_ids long_course_scheduler short_course_scheduler) as Hids.
  { unfold same_ids. by repeat split; vm_compute. }
  split; [done|]. by apply (generation_ignores_durations (engine := long_course_engine)).
Defined.

Lemma loaded_slot_duration_witness :
  time_slots shared_start_scheduler !! "s2"
    = Some (TimeSlot.mk "s2" "monday" 800 1000 2) ∧
  TimeSlot.duration (TimeSlot.mk "s2" "monday" 800 1000 2)
    = (1000 - 800) `div` 100.
Proof.
  split; [reflexivity|].
  apply (loaded_slot_duration (engine := shared_start_engine) true demo_file "s2").
  reflexivity.
Defined.

Lemma no_conflicts_iff_distinct_printable_bookings_witness :
  printable (TimeSlot.start_time (time_slot early_lesson)) ∧
  printable (TimeSlot.start_time (time_slot late_lesson)) ∧
  TimeSlot.start_time (time_slot early_lesson)
    ≠ TimeSlot.start_time (time_slot late_lesson) ∧
  (check_conflicts (set_schedule [early_lesson; late_lesson] demo_scheduler)).1
    = Ok [].
Proof.
  assert (printable (TimeSlot.start_time (time_slot early_lesson))) as H1
    by (by apply printable_small).
  assert (printable (TimeSlot.start_time (time_slot late_lesson))) as H2
    by (by apply printable_small).
  assert (TimeSlot.start_time (time_slot early_lesson)
            ≠ TimeSlot.start_time (time_slot late_lesson)) as Hstart
    by discriminate.
  do 3 (split; [done|]).
  exact (proj2 (no_conflicts_iff_distinct_printable_bookings demo_scheduler)
           early_lesson late_lesson H1 H2 Hstart).
Defined.

Lemma mock_generation_deterministic_witness :
  prolog_available demo_scheduler = false ∧
  generate_schedule (set_schedule [misplaced_entry] demo_scheduler)
    = (Ok true, set_schedule mock_schedule demo_scheduler) ∧
  generate_schedule (set_schedule mock_schedule demo_scheduler)
    = (Ok true, set_schedule mock_schedule demo_scheduler).
Proof.
  split; [reflexivity|].
  apply (mock_generation_deterministic false demo_file [misplaced_entry]).
  reflexivity.
Defined.

(** ** Formatting a time *)

Lemma length_append (a b : string) :
  String.length (a +:+ b) = (String.length a + String.length b)%nat.
Proof.
  induction a as [|c a IH]; rewrite ?append_empty, ?append_String; simpl; lia.
Qed.

Lemma append_inj_suffix (a b c d : string) :
  String.length c = String.length d → a +:+ c = b +:+ d → a = b ∧ c = d.
Proof.
  revert b. induction a as [|x a IH]; intros [|y b] Hlen;
    rewrite ?append_empty, ?append_String; intros Heq.
  - done.
  - exfalso. rewrite Heq in Hlen. simpl in Hlen.
    rewrite length_append in Hlen. lia.
  - exfalso. rewrite <-Heq in Hlen. simpl in Hlen.
    rewrite length_append in Hlen. lia.
  - injection Heq as -> Heq. destruct (IH b Hlen Heq) as [-> ->]. done.
Qed.

(** The decimal form of a positive number starts with a digit other than 0. *)
Lemma pretty_N_go_head (x : N) (s : string) :
  (0 < x)%N → ∃ c rest, pretty_N_go x s = String c rest ∧ c ≠ "0"%char.
Proof.
  revert s. induction (N.lt_wf_0 x) as [x _ IH]. intros s Hx.
  rewrite pretty_N_go_step by done.
  destruct (decide (x `div` 10 = 0)%N) as [Hsmall|Hbig].
  - rewrite Hsmall, pretty_N_go_0. eexists _, _. split; [done|].
    apply N.div_small_iff in Hsmall; [|done].
    rewrite N.mod_small by done.
    assert (x = 1 ∨ x = 2 ∨ x = 3 ∨ x = 4 ∨ x = 5 ∨ x = 6
            ∨ x = 7 ∨ x = 8 ∨ x = 9)%N as Hcases by lia.
    by repeat (destruct Hcases as [->|Hcases]); subst.
  - apply IH; [apply N.div_lt; lia|by apply N.neq_0_lt_0].
Qed.

Lemma pretty_Z_head_zero (z : Z) (rest : string) :
  pretty z = String "0" rest → z = 0.
Proof.
  destruct z as [|p|p]; [done|..]; unfold pretty, pretty_Z.
  - unfold pretty, pretty_positive, pretty, pretty_N.
    rewrite decide_False by done.
    destruct (pretty_N_go_head (N.pos p) "") as (c & r & -> & Hc); [lia|].
    by intros [= -> _].
  - rewrite append_String. by intros [=].
Qed.

Lemma pad2_inj (a b : Z) : pad2 a = pad2 b → a = b.
Proof.
  unfold pad2. repeat case_decide; rewrite ?append_String, ?append_empty.
  - intros [= Heq]. by apply (inj pretty).
  - intros Heq. symmetry in Heq. apply pretty_Z_head_zero in Heq. lia.
  - intros Heq. apply pretty_Z_head_zero in Heq. lia.
  - by apply (inj pretty).
Qed.

Lemma pad2_two_digits :
  Forall (λ n, String.length (pad2 n) = 2%nat) (seqZ 0 100).
Proof. apply (bool_decide_unpack _). by vm_compute. Qed.

Lemma pad2_length (n : Z) : 0 ≤ n < 100 → String.length (pad2 n) = 2%nat.
Proof.
  intros Hn. pose proof pad2_two_digits as Hall.
  rewrite Forall_seqZ in Hall. apply Hall. lia.
Qed.

(** X1: [_format_time] never gives two integers the same text. *)
Theorem format_time_inj (t1 t2 : Z) :
  _format_time t1 = _format_time t2 → t1 = t2.
Proof.
  unfold _format_time. cbv zeta. intros Heq.
  pose proof (Z.mod_pos_bound t1 100 eq_refl) as H1.
  pose proof (Z.mod_pos_bound t2 100 eq_refl) as H2.
  apply append_inj_suffix in Heq as [Hh Hm].
  - apply pad2_inj in Hh. injection Hm as Hm%pad2_inj.
    rewrite (Z.div_mod t1 100), (Z.div_mod t2 100) by done. congruence.
  - rewrite !append_String, !append_empty. simpl.
    by rewrite !pad2_length.
Qed.

Lemma format_time_inj_witness :
  _format_time 1300 = _format_time (13 * 100) ∧ 1300 = 13 * 100.
Proof.
  assert (_format_time 1300 = _format_time (13 * 100)) as Heq
    by reflexivity.
  split; [done|]. by apply format_time_inj.
Defined.

(** X2: for a time from 0 to 9999 the text has five characters, two digits
    on each side of the colon, and the part after the colon is the remainder
    modulo 100, which is not reduced to minutes: 1275 gives 12:75. *)
Theorem format_time_shape (t : Z) :
  0 ≤ t < 10000 →
  ∃ h1 h2 m1 m2 : ascii,
    _format_time t = String h1 (String h2 (String ":" (String m1 (String m2 ""))))
    ∧ pad2 (t `div` 100) = String h1 (String h2 "")
    ∧ pad2 (t `mod` 100) = String m1 (String m2 "").
Proof.
  intros Ht. unfold _format_time. cbv zeta.
  assert (0 ≤ t `div` 100 < 100) as Hh.
  { split; [apply Z.div_pos; lia|apply Z.div_lt_upper_bound; lia]. }
  pose proof (Z.mod_pos_bound t 100 eq_refl) as Hm.
  apply pad2_length in Hh, Hm.
  destruct (pad2 (t `div` 100)) as [|h1 [|h2 [|??]]]; try discriminate.
  destruct (pad2 (t `mod` 100)) as [|m1 [|m2 [|??]]]; try discriminate.
  by exists h1, h2, m1, m2.
Qed.

Lemma format_time_shape_witness :
  0 ≤ 1275 < 10000 ∧
  ∃ h1 h2 m1 m2 : ascii,
    _format_time 1275 = String h1 (String h2 (String ":" (String m1 (String m2 ""))))
    ∧ pad2 (1275 `div` 100) = String h1 (String h2 "")
    ∧ pad2 (1275 `mod` 100) = String m1 (String m2 "").
Proof. split; [lia|]. apply format_time_shape. lia. Defined.

(** ** Counting and tracing the reported conflicts *)

Lemma size_insert_seen `{Countable A} (x : A) (seen : list A) (X : gset A) :
  X = list_to_set seen →
  ((if decide (x ∈ seen) then 1 else 0) + size ({[x]} ∪ X) = 1 + size X)%nat.
Proof.
  intros ->. case_decide as Hin.
  - rewrite (subseteq_union_1_L {[x]} (list_to_set seen)); [done|].
    by apply singleton_subseteq_l, elem_of_list_to_set.
  - rewrite size_union, size_singleton; [done|].
    apply disjoint_singleton_l. by rewrite elem_of_list_to_set.
Qed.

Lemma size_list_to_set_inj `{Countable A, Countable B} (f : A → B) (l : list A) :
  Inj (=) (=) f →
  size (list_to_set (f <$> l) : gset B) = size (list_to_set l : gset A).
Proof.
  intros Hinj. induction l as [|x l IH]; [done|].
  rewrite fmap_cons, !list_to_set_cons.
  pose proof (size_insert_seen x l _ eq_refl) as Hx.
  pose proof (size_insert_seen (f x) (f <$> l) _ eq_refl) as Hfx.
  destruct (decide (x ∈ l)) as [Hin|Hin];
    destruct (decide (f x ∈ f <$> l)) as [Hfin|Hfin]; try lia.
  - destruct Hfin. by apply list_elem_of_fmap_2.
  - apply list_elem_of_fmap in Hfin as (y & ->%Hinj & Hy). done.
Qed.

(** Each entry adds one message per booking already met. *)
Lemma report_count (entries : list ScheduleEntry) seen_t seen_r :
  (length (report seen_t seen_r entries)
   + size (list_to_set seen_t ∪ list_to_set (teacher_key <$> entries)
           : gset (string * string))
   + size (list_to_set seen_r ∪ list_to_set (room_key <$> entries)
           : gset (string * string))
   = 2 * length entries
     + size (list_to_set seen_t : gset (string * string))
     + size (list_to_set seen_r : gset (string * string)))%nat.
Proof.
  revert seen_t seen_r.
  induction entries as [|e rest IH]; intros seen_t seen_r.
  - simpl. rewrite ?list_to_set_nil, !(right_id_L ∅ (∪)). lia.
  - cbn [report]. rewrite !length_app, !fmap_cons.
    specialize (IH (teacher_key e :: seen_t) (room_key e :: seen_r)).
    rewrite !list_to_set_cons in IH. rewrite !list_to_set_cons.
    pose proof (size_insert_seen (teacher_key e) seen_t _ eq_refl) as Ht.
    pose proof (size_insert_seen (room_key e) seen_r _ eq_refl) as Hr.
    rewrite !(assoc_L (∪)).
    rewrite (comm_L (∪) (list_to_set seen_t : gset _) {[teacher_key e]}).
    rewrite (comm_L (∪) (list_to_set seen_r : gset _) {[room_key e]}).
    destruct (decide (teacher_key e ∈ seen_t));
      destruct (decide (room_key e ∈ seen_r)); simpl in *; lia.
Qed.

Lemma report_count_bookings (entries : list ScheduleEntry) :
  (length (report [] [] entries)
   + size (list_to_set (teacher_booking <$> entries) : gset (string * string * Z))
   + size (list_to_set (room_booking <$> entries) : gset (string * string * Z))
   = 2 * length entries)%nat.
Proof.
  pose proof (report_count entries [] []) as Hcount.
  rewrite !list_to_set_nil, !(left_id_L ∅ (∪)), size_empty in Hcount.
  rewrite <-(size_list_to_set_inj format_booking (teacher_booking <$> entries)) by apply _.
  rewrite <-(size_list_to_set_inj format_booking (room_booking <$> entries)) by apply _.
  rewrite <-!list_fmap_compose. 
  change (format_booking ∘ teacher_booking) with teacher_key.
  change (format_booking ∘ room_booking) with room_key.
  lia.
Qed.

Lemma report_app (l1 l2 : list ScheduleEntry) seen_t seen_r :
  report seen_t seen_r (l1 ++ l2)
  = (report seen_t seen_r l1 ++
     report (reverse (teacher_key <$> l1) ++ seen_t)
            (reverse (room_key <$> l1) ++ seen_r) l2)%list.
Proof.
  revert seen_t seen_r. induction l1 as [|e l1 IH]; intros seen_t seen_r.
  - done.
  - cbn [app report]. rewrite IH, !fmap_cons, !reverse_cons.
    by rewrite <-!app_assoc.
Qed.

Lemma report_sound (entries : list ScheduleEntry) seen_t seen_r msg :
  msg ∈ report seen_t seen_r entries →
  ∃ j e, entries !! j = Some e ∧
    ((msg = teacher_conflict (Course.teacher_name (course e)) (slot_text e) ∧
      (teacher_key e ∈ seen_t ∨
       ∃ i e', (i < j)%nat ∧ entries !! i = Some e' ∧ teacher_key e' = teacher_key e))
     ∨
     (msg = room_conflict (Room.id (room e)) (slot_text e) ∧
      (room_key e ∈ seen_r ∨
       ∃ i e', (i < j)%nat ∧ entries !! i = Some e' ∧ room_key e' = room_key e))).
Proof.
  revert seen_t seen_r.
  induction entries as [|e rest IH]; intros seen_t seen_r; cbn [report].
  - by intros ?%elem_of_nil.
  - rewrite !elem_of_app. intros [Hm|[Hm|Hm]].
    + case_decide as Hin; [|by apply elem_of_nil in Hm].
      apply list_elem_of_singleton in Hm as ->.
      exists 0%nat, e. split; [done|]. left. split; [done|]. by left.
    + case_decide as Hin; [|by apply elem_of_nil in Hm].
      apply list_elem_of_singleton in Hm as ->.
      exists 0%nat, e. split; [done|]. right. split; [done|]. by left.
    + apply IH in Hm as (j & e1 & Hj & Hcase).
      exists (S j), e1. split; [done|].
      destruct Hcase as [[-> Hseen]|[-> Hseen]]; [left|right];
        (split; [done|]);
        destruct Hseen as [[Heq|Hin]%elem_of_cons|(i & e' & Hlt & Hi & Heq)].
      * right. exists 0%nat, e. split; [lia|done].
      * by left.
      * right. exists (S i), e'. split; [lia|done].
      * right. exists 0%nat, e. split; [lia|done].
      * by left.
      * right. exists (S i), e'. split; [lia|done].
Qed.

Lemma report_length_le (entries : list ScheduleEntry) seen_t seen_r :
  (length (report seen_t seen_r entries) ≤ 2 * length entries)%nat.
Proof.
  revert seen_t seen_r.
  induction entries as [|e rest IH]; intros seen_t seen_r; cbn [report].
  - simpl. lia.
  - rewrite !length_app. specialize (IH (teacher_key e :: seen_t) (room_key e :: seen_r)).
    repeat case_decide; simpl; lia.
Qed.

Lemma size_list_to_set_le `{Countable A} (l : list A) :
  (size (list_to_set l : gset A) ≤ length l)%nat.
Proof.
  induction l as [|x l IH]; [done|].
  rewrite list_to_set_cons.
  pose proof (size_insert_seen x l _ eq_refl).
  case_decide; simpl; lia.
Qed.

Lemma size_list_to_set_pos `{Countable A} (x : A) (l : list A) :
  (1 ≤ size (list_to_set (x :: l) : gset A))%nat.
Proof.
  destruct (size (list_to_set (x :: l) : gset A)) eqn:Hsize; [|lia].
  apply size_empty_iff in Hsize. exfalso.
  apply (not_elem_of_empty (C := gset A) x). rewrite <-Hsize.
  apply elem_of_list_to_set. by left.
Qed.

Section CheckedSchedules.
Context {KB : Type} {engine : PrologEngine KB}.
Implicit Types (s : TimetableScheduler KB).

(** X3: for a schedule whose start times can be formatted, the number of
    messages is fixed by the bookings.  Each entry gives one teacher message
    unless it is the first with its (teacher_name, day, start_time), and one
    room message unless it is the first with its (room id, day, start_time):
    messages + distinct teacher bookings + distinct room bookings = twice the
    number of entries. *)
Theorem printable_conflict_count s :
  all_printable (schedule s) →
  ∃ found, check_conflicts s = (Ok found, s) ∧
    (length found
     + size (list_to_set (teacher_booking <$> schedule s) : gset (string * string * Z))
     + size (list_to_set (room_booking <$> schedule s) : gset (string * string * Z))
     = 2 * length (schedule s))%nat.
Proof.
  intros Hprint. exists (report [] [] (schedule s)).
  split; [by apply check_conflicts_printable|apply report_count_bookings].
Qed.

(** X4: nothing is reported without cause.  Every message [check_conflicts]
    returns is the teacher message or the room message of an entry that has
    the teacher (the room), the day and the start of an earlier entry. *)
Theorem reported_conflicts_are_double_bookings s found msg :
  (check_conflicts s).1 = Ok found → msg ∈ found →
  ∃ e,
    (msg = teacher_conflict (Course.teacher_name (course e)) (slot_text e)
     ∧ teacher_double_booked (schedule s) e)
    ∨ (msg = room_conflict (Room.id (room e)) (slot_text e)
       ∧ room_double_booked (schedule s) e).
Proof.
  rewrite check_conflicts_eq. cbn [fst]. case_decide; [|done].
  intros [= <-] Hmsg.
  apply report_sound in Hmsg as (j & e & Hj & Hcase). exists e.
  destruct Hcase as [[-> Hseen]|[-> Hseen]]; [left|right]; (split; [done|]);
    destruct Hseen as [Hnil|(i & e' & Hlt & Hi & Heq)];
    try (by apply elem_of_nil in Hnil);
    exists i, j, e'; repeat split; try done.
  - rewrite !teacher_key_format in Heq. by apply (inj format_booking).
  - rewrite !room_key_format in Heq. by apply (inj format_booking).
Qed.

(** X5: adding entries at the end of a schedule keeps the messages found so
    far, in place, and adds at most two per new entry, as long as the start
    times of old and new entries can be formatted. *)
Theorem printable_conflicts_extend s (l1 l2 : list ScheduleEntry) :
  all_printable (l1 ++ l2) →
  ∃ found more,
    check_conflicts (set_schedule l1 s) = (Ok found, set_schedule l1 s) ∧
    check_conflicts (set_schedule (l1 ++ l2) s)
      = (Ok (found ++ more)%list, set_schedule (l1 ++ l2) s) ∧
    (length more ≤ 2 * length l2)%nat.
Proof.
  intros Hprint. pose proof Hprint as [H1 _]%Forall_app.
  eexists _, _. rewrite !check_conflicts_printable by done.
  cbn [schedule set_schedule].
  rewrite report_app. split; [done|]. split; [done|].
  apply report_length_le.
Qed.

(** X6: the number of messages does not depend on the order of the
    entries. *)
Theorem conflict_count_order s1 s2 found1 found2 :
  schedule s1 ≡ₚ schedule s2 →
  (check_conflicts s1).1 = Ok found1 → (check_conflicts s2).1 = Ok found2 →
  length found1 = length found2.
Proof.
  rewrite !check_conflicts_eq. cbn [fst]. intros Hperm.
  destruct (decide (all_printable (schedule s1))); [|done].
  destruct (decide (all_printable (schedule s2))); [|done].
  intros [= <-] [= <-].
  pose proof (report_count_bookings (schedule s1)) as H1.
  pose proof (report_count_bookings (schedule s2)) as H2.
  assert (list_to_set (teacher_booking <$> schedule s1)
          =@{gset (string * string * Z)}
          list_to_set (teacher_booking <$> schedule s2)) as Ht
    by (by rewrite Hperm).
  assert (list_to_set (room_booking <$> schedule s1)
          =@{gset (string * string * Z)}
          list_to_set (room_booking <$> schedule s2)) as Hr
    by (by rewrite Hperm).
  apply Permutation_length in Hperm.
  rewrite Ht, Hr, Hperm in H1. lia.
Qed.

Lemma get_statistics_eq s :
  get_statistics s =
  (match schedule s with
   | [] => Ok ∅
   | _ :: _ =>
     if decide (all_printable (schedule s)) then
       Ok (<["conflicts" := Z.of_nat (length (report [] [] (schedule s)))]>
          (<["used_time_slots" :=
               distinct ((λ e, TimeSlot.id (time_slot e)) <$> schedule s)]>
          (<["total_time_slots" := Z.of_nat (size (time_slots s))]>
          (<["used_rooms" := distinct ((λ e, Room.id (room e)) <$> schedule s)]>
          (<["total_rooms" := Z.of_nat (size (rooms s))]>
          (<["scheduled_courses" := Z.of_nat (length (schedule s))]>
          (<["total_courses" := Z.of_nat (size (courses s))]> ∅)))))))
     else Raise ValueError
   end, s).
Proof.
  unfold get_statistics, bind, get. cbn [fst snd].
  destruct (schedule s) as [|e l] eqn:Hs; [done|].
  rewrite check_conflicts_eq, Hs.
  by destruct (decide (all_printable (e :: l))).
Qed.

(** X7: for a schedule that is not empty and whose start times can be
    formatted [get_statistics] returns the seven counters and leaves the
    object as it was; between 1 and [scheduled_courses] rooms and time slots
    are in use, and there are at most [2 * (scheduled_courses - 1)]
    conflicts. *)
Theorem printable_statistics_bounds s :
  schedule s ≠ [] → all_printable (schedule s) →
  ∃ (stats : gmap string Z) (n used_rooms used_slots found : Z),
    get_statistics s = (Ok stats, s) ∧
    dom stats = {[ "total_courses"; "scheduled_courses"; "total_rooms";
                   "used_rooms"; "total_time_slots"; "used_time_slots";
                   "conflicts" ]} ∧
    stats !! "scheduled_courses" = Some n ∧ n = Z.of_nat (length (schedule s)) ∧
    stats !! "used_rooms" = Some used_rooms ∧ (1 ≤ used_rooms ≤ n)%Z ∧
    stats !! "used_time_slots" = Some used_slots ∧ (1 ≤ used_slots ≤ n)%Z ∧
    stats !! "conflicts" = Some found ∧ (0 ≤ found ≤ 2 * (n - 1))%Z.
Proof.
  intros Hne Hprint. rewrite get_statistics_eq, decide_True by done.
  pose proof (report_count_bookings (schedule s)) as Hcount.
  destruct (schedule s) as [|e l] eqn:Hs; [done|].
  eexists _, _, _, _, _. split; [done|].
  split; [by rewrite !dom_insert_L, dom_empty_L; set_solver|].
  split; [done|]. split; [done|].
  split; [done|]. split.
  { unfold distinct. rewrite fmap_cons.
    pose proof (size_list_to_set_pos (Room.id (room e))
                  ((λ e, Room.id (room e)) <$> l)).
    pose proof (size_list_to_set_le
                  (Room.id (room e) :: ((λ e, Room.id (room e)) <$> l))) as Hle.
    cbn [length] in Hle. rewrite length_fmap in Hle. cbn [length]. lia. }
  split; [done|]. split.
  { unfold distinct. rewrite fmap_cons.
    pose proof (size_list_to_set_pos (TimeSlot.id (time_slot e))
                  ((λ e, TimeSlot.id (time_slot e)) <$> l)).
    pose proof (size_list_to_set_le
                  (TimeSlot.id (time_slot e)
                   :: ((λ e, TimeSlot.id (time_slot e)) <$> l))) as Hle.
    cbn [length] in Hle. rewrite length_fmap in Hle. cbn [length]. lia. }
  split; [done|].
  rewrite !fmap_cons in Hcount.
  pose proof (size_list_to_set_pos (teacher_booking e) (teacher_booking <$> l)).
  pose proof (size_list_to_set_pos (room_booking e) (room_booking <$> l)).
  cbn [length] in *. lia.
Qed.
End CheckedSchedules.

(** ** Generation, step by step *)

Lemma length_omap_le {A B} (f : A → option B) (l : list A) :
  (length (omap f l) ≤ length l)%nat.
Proof.
  induction l as [|x l IH]; [done|].
  cbn [omap list_omap]. destruct (f x); simpl; lia.
Qed.

Section Generation.
Context {KB : Type} {engine : PrologEngine KB}.
Implicit Types (s : TimetableScheduler KB).

Lemma set_schedule_same s : set_schedule (schedule s) s = s.
Proof. by destruct s. Qed.

Lemma place_eq triple s :
  place triple s =
  (Ok (), match hydrate s triple with
          | Some e => set_schedule (schedule s ++ [e]) s
          | None => s
          end).
Proof.
  destruct triple as [[c t] r]. unfold place, bind, get, hydrate. simpl.
  case_decide as Hin.
  - destruct Hin as ([x Hx] & [y Hy] & [z Hz]).
    unfold lift, getitem. by rewrite Hx, Hy, Hz.
  - destruct (courses s !! c) as [x|]; simpl; [|done].
    destruct (time_slots s !! t) as [y|]; simpl; [|done].
    destruct (rooms s !! r) as [z|]; simpl; [|done].
    destruct Hin. eauto.
Qed.

Lemma for_each_place triples s :
  for_each triples place s =
  (Ok (), set_schedule (schedule s ++ omap (hydrate s) triples) s).
Proof.
  revert s. induction triples as [|triple triples IH]; intros s.
  - simpl. by rewrite app_nil_r, set_schedule_same.
  - cbn [for_each omap list_omap]. unfold bind. rewrite place_eq.
    destruct (hydrate s triple) as [e|]; [|apply IH].
    rewrite IH. cbn [schedule set_schedule]. by rewrite <-app_assoc.
Qed.

Lemma for_each_timetables (sols : list (list (string * string * string))) s :
  for_each sols (λ sol, for_each sol place) s =
  (Ok (), set_schedule (schedule s ++ omap (hydrate s) (concat sols)) s).
Proof.
  revert s. induction sols as [|sol sols IH]; intros s.
  - simpl. by rewrite app_nil_r, set_schedule_same.
  - cbn [for_each concat]. unfold bind. rewrite for_each_place, IH.
    cbn [schedule set_schedule]. by rewrite omap_app, <-app_assoc.
Qed.

(** [_generate_prolog_schedule], query by query. *)
Lemma generate_prolog_spec s :
  _generate_prolog_schedule s =
  match prolog s with
  | None => (Ok false, s)
  | Some kb =>
    let cleared := clear_schedule kb in
    match ended cleared.1 with
    | Raised => (Ok false, set_prolog (Some cleared.2) s)
    | Exhausted =>
      let generated := generate_optimal_timetable cleared.2 in
      match ended generated.1, solutions generated.1 with
      | Exhausted, _ :: _ =>
        let stored := get_schedule generated.2 in
        (Ok match ended stored.1 with Exhausted => true | Raised => false end,
         set_schedule (omap (hydrate s) (concat (solutions stored.1)))
           (set_prolog (Some stored.2) s))
      | _, _ => (Ok false, set_prolog (Some generated.2) s)
      end
    end
  end.
Proof.
  unfold _generate_prolog_schedule, try_except, bind.
  rewrite list_query_eq.
  destruct (prolog s) as [kb|] eqn:Hkb; [|done]. cbv zeta.
  destruct (ended (clear_schedule kb).1); [|done].
  rewrite list_query_eq. cbn [prolog set_prolog].
  destruct (ended (generate_optimal_timetable (clear_schedule kb).2).1);
    [|done].
  destruct (solutions (generate_optimal_timetable (clear_schedule kb).2).1);
    [done|].
  unfold for_query, bind, the_prolog, modify. cbn [prolog set_prolog set_schedule].
  destruct (get_schedule (generate_optimal_timetable (clear_schedule kb).2).2)
    as [ans kb'].
  rewrite for_each_timetables. cbn [schedule set_schedule set_prolog fst snd].
  rewrite app_nil_l.
  by destruct (ended ans).
Qed.
Lemma hydrate_from_catalog s triple e :
  hydrate s triple = Some e → from_catalog s e.
Proof.
  destruct triple as [[c t] r]. unfold hydrate, from_catalog.
  destruct (courses s !! c) as [x|] eqn:Hx; simpl; [|done].
  destruct (time_slots s !! t) as [y|] eqn:Hy; simpl; [|done].
  destruct (rooms s !! r) as [z|] eqn:Hz; simpl; [|done].
  intros [= <-]. simpl. repeat split; eauto.
Qed.

Lemma mock_entry_eq c t r s :
  mock_entry c t r s =
  (match courses s !! c with
   | None => Raise (KeyError c)
   | Some c' =>
     match time_slots s !! t with
     | None => Raise (KeyError t)
     | Some t' =>
       match rooms s !! r with
       | None => Raise (KeyError r)
       | Some r' => Ok (mkEntry c' t' r')
       end
     end
   end, s).
Proof.
  unfold mock_entry, bind, get, lift, getitem, ret. simpl.
  destruct (courses s !! c); [|done].
  destruct (time_slots s !! t); [|done].
  by destruct (rooms s !! r).
Qed.

(** X8: in Prolog mode, once [clear_schedule] and
    [generate_optimal_timetable] have answered and a timetable was found, the
    old schedule is dropped and the new one holds, in the order of the
    answers of [get_schedule], one entry for each triple whose three ids are
    in the catalog; the other triples are skipped without notice.  The call
    returns true when [get_schedule] ends normally and false, with the
    entries read so far in place, when it raises. *)
Theorem prolog_generation_hydrates s kb :
  prolog_available s = true → prolog s = Some kb →
  let cleared := clear_schedule kb in
  let generated := generate_optimal_timetable cleared.2 in
  let stored := get_schedule generated.2 in
  ended cleared.1 = Exhausted → ended generated.1 = Exhausted →
  solutions generated.1 ≠ [] →
  generate_schedule s
  = (Ok match ended stored.1 with Exhausted => true | Raised => false end,
     set_schedule (omap (hydrate s) (concat (solutions stored.1)))
       (set_prolog (Some stored.2) s))
  ∧ (length (omap (hydrate s) (concat (solutions stored.1)))
     ≤ length (concat (solutions stored.1)))%nat.
Proof.
  intros Hav Hkb cleared generated stored Hc Hg Hsol.
  split; [|apply length_omap_le].
  unfold generate_schedule, bind, get. simpl. rewrite Hav.
  rewrite generate_prolog_spec, Hkb. cbv zeta.
  fold cleared. rewrite Hc. fold generated. rewrite Hg.
  by destruct (solutions generated.1).
Qed.

(** X9: in Prolog mode, when the engine is missing, a query raises before a
    timetable is found, or [generate_optimal_timetable] has no solution,
    [generate_schedule] returns false and the schedule of an earlier call
    stays in place. *)
Theorem prolog_generation_failure_keeps_schedule s :
  prolog_available s = true →
  (prolog s = None ∨
   ∃ kb, prolog s = Some kb ∧
     (ended (clear_schedule kb).1 = Raised ∨
      ended (generate_optimal_timetable (clear_schedule kb).2).1 = Raised ∨
      solutions (generate_optimal_timetable (clear_schedule kb).2).1 = [])) →
  (generate_schedule s).1 = Ok false ∧
  schedule (generate_schedule s).2 = schedule s.
Proof.
  intros Hav Hfail.
  unfold generate_schedule, bind, get. simpl. rewrite Hav.
  rewrite generate_prolog_spec.
  destruct Hfail as [->|(kb & -> & Hfail)]; [done|]. cbv zeta.
  destruct (ended (clear_schedule kb).1); [|done].
  destruct Hfail as [[=]|[Hg|Hsol]].
  - by rewrite Hg.
  - rewrite Hsol. by destruct (ended _).
Qed.

(** X10: after a successful [generate_schedule], in either mode, the course,
    the time slot and the room of every scheduled entry are records of the
    catalog. *)
Theorem generated_entries_from_catalog s s' :
  generate_schedule s = (Ok true, s') →
  Forall (from_catalog s') (schedule s').
Proof.
  unfold generate_schedule, bind, get. simpl.
  destruct (prolog_available s).
  - rewrite generate_prolog_spec.
    destruct (prolog s) as [kb|]; [|done]. cbv zeta.
    destruct (ended (clear_schedule kb).1); [|done].
    destruct (ended (generate_optimal_timetable (clear_schedule kb).2).1);
      [|done].
    destruct (solutions (generate_optimal_timetable (clear_schedule kb).2).1);
      [done|].
    intros [= _ <-]. cbn [schedule set_schedule].
    apply Forall_forall. intros e (triple & _ & He)%list_elem_of_omap.
    by apply hydrate_from_catalog in He.
  - unfold _generate_mock_schedule, bind. rewrite !mock_entry_eq.
    destruct (courses s !! "cs101") eqn:?; [|done].
    destruct (time_slots s !! "slot3") eqn:?; [|done].
    destruct (rooms s !! "r001") eqn:?; [|done].
    rewrite ?mock_entry_eq.
    destruct (courses s !! "math101") eqn:?; [|done].
    destruct (time_slots s !! "slot1") eqn:?; [|done].
    destruct (rooms s !! "r002") eqn:?; [|done].
    rewrite ?mock_entry_eq.
    destruct (courses s !! "phy101") eqn:?; [|done].
    destruct (time_slots s !! "slot5") eqn:?; [|done].
    destruct (rooms s !! "r003") eqn:?; [|done].
    intros [= <-]. cbn [schedule set_schedule].
    repeat (apply Forall_cons; split); try apply Forall_nil;
      unfold from_catalog; simpl; repeat split; eauto.
Qed.

(** X11: in mock mode [generate_schedule] needs the nine ids of its fixed
    schedule.  When the catalog has them all the call returns true with three
    entries; when one is missing it raises KeyError for a missing id and
    leaves the object, with its old schedule, untouched. *)
Theorem mock_generation_needs_its_ids s :
  prolog_available s = false →
  (mock_ids_present s →
   ∃ e1 e2 e3, generate_schedule s = (Ok true, set_schedule [e1; e2; e3] s))
  ∧ (¬ mock_ids_present s →
     ∃ id, generate_schedule s = (Raise (KeyError id), s) ∧
           id ∈ ["cs101"; "slot3"; "r001"; "math101"; "slot1"; "r002";
                 "phy101"; "slot5"; "r003"] ∧
           (courses s !! id = None ∨ time_slots s !! id = None
            ∨ rooms s !! id = None)).
Proof.
  intros Hav. unfold generate_schedule, bind, get. simpl. rewrite Hav.
  unfold _generate_mock_schedule, bind, mock_ids_present.
  rewrite !mock_entry_eq.
  destruct (courses s !! "cs101") eqn:?;
    [|split; [by intros ((?%is_Some_None & _) & _)|intros _; eexists; split; [done|]; split; [set_solver|auto]]].
  destruct (time_slots s !! "slot3") eqn:?;
    [|split; [by intros ((_ & ?%is_Some_None & _) & _)|intros _; eexists; split; [done|]; split; [set_solver|auto]]].
  destruct (rooms s !! "r001") eqn:?;
    [|split; [by intros ((_ & _ & ?%is_Some_None) & _)|intros _; eexists; split; [done|]; split; [set_solver|auto]]].
  rewrite ?mock_entry_eq.
  destruct (courses s !! "math101") eqn:?;
    [|split; [by intros (_ & (?%is_Some_None & _) & _)|intros _; eexists; split; [done|]; split; [set_solver|auto]]].
  destruct (time_slots s !! "slot1") eqn:?;
    [|split; [by intros (_ & (_ & ?%is_Some_None & _) & _)|intros _; eexists; split; [done|]; split; [set_solver|auto]]].
  destruct (rooms s !! "r002") eqn:?;
    [|split; [by intros (_ & (_ & _ & ?%is_Some_None) & _)|intros _; eexists; split; [done|]; split; [set_solver|auto]]].
  rewrite ?mock_entry_eq.
  destruct (courses s !! "phy101") eqn:?;
    [|split; [by intros (_ & _ & (?%is_Some_None & _))|intros _; eexists; split; [done|]; split; [set_solver|auto]]].
  destruct (time_slots s !! "slot5") eqn:?;
    [|split; [by intros (_ & _ & (_ & ?%is_Some_None & _))|intros _; eexists; split; [done|]; split; [set_solver|auto]]].
  destruct (rooms s !! "r003") eqn:?;
    [|split; [by intros (_ & _ & (_ & _ & ?%is_Some_None))|intros _; eexists; split; [done|]; split; [set_solver|auto]]].
  split; [intros _; eauto|].
  intros []. repeat split; eauto.
Qed.
End Generation.

(** ** Loading, step by step *)

Lemma last_cons_cons {A} (x y : A) (l : list A) : last (x :: y :: l) = last (y :: l).
Proof. done. Qed.

Lemma foldl_insert_lookup {A V} (key : A → string) (value : A → V)
    (facts : list A) (m : gmap string V) (id : string) :
  foldl (λ d x, <[key x := value x]> d) m facts !! id
  = match last_fact key value facts id with
    | Some v => Some v
    | None => m !! id
    end.
Proof.
  revert m. induction facts as [|x facts IH]; intros m; [done|].
  cbn [foldl]. rewrite IH. unfold last_fact. rewrite filter_cons.
  destruct (decide (key x = id)) as [Hx|Hx].
  - destruct (filter (λ x, key x = id) facts) as [|y l] eqn:Hf.
    + subst id. cbn [last fmap option_fmap option_map]. apply lookup_insert_eq.
    + rewrite last_cons_cons.
      destruct (last (y :: l)) eqn:Hlast; [done|].
      by apply last_None in Hlast.
  - destruct (last (filter (λ x, key x = id) facts)); simpl; [done|].
    by rewrite lookup_insert_ne.
Qed.

Lemma foldl_insert_Forall {A V} (key : A → string) (value : A → V)
    (P : string → V → Prop) (facts : list A) (m : gmap string V) :
  (∀ x, P (key x) (value x)) → map_Forall P m →
  map_Forall P (foldl (λ d x, <[key x := value x]> d) m facts).
Proof.
  intros HP. revert m. induction facts as [|x facts IH]; intros m Hm; [done|].
  cbn [foldl]. apply IH. by apply map_Forall_insert_2.
Qed.

Section Loading.
Context {KB : Type} {engine : PrologEngine KB}.
Implicit Types (s : TimetableScheduler KB).

Lemma for_each_load_course facts s :
  for_each facts load_course s =
  (Ok (), set_courses
            (foldl (λ d x, <[Course.id (course_of_fact x) := course_of_fact x]> d)
                   (courses s) facts) s).
Proof.
  revert s. induction facts as [|[[[[a b] c] d] e] facts IH]; intros s.
  - by destruct s.
  - cbn [for_each foldl]. unfold bind. simpl. by rewrite IH.
Qed.

Lemma for_each_load_time_slot facts s :
  for_each facts load_time_slot s =
  (Ok (), set_time_slots
            (foldl (λ d x, <[TimeSlot.id (slot_of_fact x) := slot_of_fact x]> d)
                   (time_slots s) facts) s).
Proof.
  revert s. induction facts as [|[[[a b] c] d] facts IH]; intros s.
  - by destruct s.
  - cbn [for_each foldl]. unfold bind. simpl. by rewrite IH.
Qed.

Lemma for_each_load_room facts s :
  for_each facts load_room s =
  (Ok (), set_rooms
            (foldl (λ d x, <[Room.id (room_of_fact x) := room_of_fact x]> d)
                   (rooms s) facts) s).
Proof.
  revert s. induction facts as [|[[a b] c] facts IH]; intros s.
  - by destruct s.
  - cbn [for_each foldl]. unfold bind. simpl. by rewrite IH.
Qed.

Lemma for_query_eq {A} (q : KB → answers A * KB) body s kb s1 :
  prolog s = Some kb →
  for_each (solutions (q kb).1) body (set_prolog (Some (q kb).2) s) = (Ok (), s1) →
  for_query q body s =
  (match ended (q kb).1 with
   | Exhausted => Ok ()
   | Raised => Raise PrologError
   end, s1).
Proof.
  intros Hkb Hbody. unfold for_query, bind, the_prolog. rewrite Hkb.
  destruct (q kb) as [ans kb']. simpl in *. rewrite Hbody.
  by destruct (ended ans).
Qed.

(** The constructor, up to the loading of the catalog. *)
Lemma new_scheduler_eq PYSWIP file :
  new_scheduler PYSWIP file =
  if PYSWIP then
    match consult file new_engine with
    | Ok kb => _load_from_prolog (mkScheduler file true (Some kb) ∅ ∅ ∅ [])
    | Raise _ =>
      (Ok (), mkScheduler file false (Some new_engine)
                mock_courses mock_time_slots mock_rooms [])
    end
  else
    (Ok (), mkScheduler file false None
              mock_courses mock_time_slots mock_rooms []).
Proof.
  unfold new_scheduler, __init__, bind, modify. simpl.
  destruct PYSWIP; simpl; [|done].
  unfold try_except, bind, the_prolog, lift, modify. simpl.
  by destruct (consult file new_engine) as [kb|e].
Qed.

(** [_load_from_prolog], query by query: the three dictionaries filled from
    the answers, or the mock catalog as soon as one query raises. *)
Lemma load_from_prolog_spec s kb :
  prolog s = Some kb →
  let cs := get_course_details kb in
  let ts := get_time_details cs.2 in
  let rs := get_room_details ts.2 in
  ∃ s', _load_from_prolog s = (Ok (), s') ∧
    prolog_file s' = prolog_file s ∧
    prolog_available s' = prolog_available s ∧
    schedule s' = schedule s ∧
    match ended cs.1, ended ts.1, ended rs.1 with
    | Exhausted, Exhausted, Exhausted =>
      courses s' =
        foldl (λ d x, <[Course.id (course_of_fact x) := course_of_fact x]> d)
              (courses s) (solutions cs.1) ∧
      time_slots s' =
        foldl (λ d x, <[TimeSlot.id (slot_of_fact x) := slot_of_fact x]> d)
              (time_slots s) (solutions ts.1) ∧
      rooms s' =
        foldl (λ d x, <[Room.id (room_of_fact x) := room_of_fact x]> d)
              (rooms s) (solutions rs.1)
    | _, _, _ =>
      courses s' = mock_courses ∧ time_slots s' = mock_time_slots ∧
      rooms s' = mock_rooms
    end.
Proof.
  intros Hkb cs ts rs. unfold _load_from_prolog, try_except, bind.
  erewrite (for_query_eq get_course_details load_course);
    [|exact Hkb|apply for_each_load_course].
  fold cs. destruct (ended cs.1); [|by eexists].
  erewrite (for_query_eq get_time_details load_time_slot);
    [|reflexivity|apply for_each_load_time_slot].
  fold ts. destruct (ended ts.1); [|by eexists].
  erewrite (for_query_eq get_room_details load_room);
    [|reflexivity|apply for_each_load_room].
  fold rs. destruct (ended rs.1); by eexists.
Qed.
Lemma mock_catalog_keyed :
  map_Forall (λ k c, Course.id c = k) mock_courses ∧
  map_Forall (λ k t, TimeSlot.id t = k) mock_time_slots ∧
  map_Forall (λ k r, Room.id r = k) mock_rooms.
Proof.
  unfold mock_courses, mock_time_slots, mock_rooms.
  repeat split;
    repeat (apply map_Forall_insert_2; [reflexivity|]);
    apply map_Forall_empty.
Qed.

(** X12: the constructor never raises, whatever the engine does.  It
    returns an object with an empty schedule, and [prolog_available] is set
    exactly when pyswip is installed and consulting the file succeeded. *)
Theorem constructor_returns PYSWIP file :
  (new_scheduler PYSWIP file).1 = Ok () ∧
  prolog_file (new_scheduler PYSWIP file).2 = file ∧
  schedule (new_scheduler PYSWIP file).2 = [] ∧
  (prolog_available (new_scheduler PYSWIP file).2 = true
   ↔ PYSWIP = true ∧ ∃ kb, consult file new_engine = Ok kb).
Proof.
  rewrite new_scheduler_eq. destruct PYSWIP.
  - destruct (consult file new_engine) as [kb|e] eqn:Hconsult.
    + destruct (load_from_prolog_spec
                  (mkScheduler file true (Some kb) ∅ ∅ ∅ []) kb eq_refl)
        as (s' & -> & Hfile & Hav & Hsched & _).
      simpl in *. rewrite Hav. repeat split; eauto.
    + simpl. repeat split; try done. by intros (_ & ? & [=]).
  - simpl. repeat split; try done. by intros [[=] _].
Qed.

(** X13: in the catalog the constructor builds, from the knowledge base or
    from the mock data, every course, time slot and room is stored under its
    own id. *)
Theorem constructor_keys_are_ids PYSWIP file :
  keyed_by_id (new_scheduler PYSWIP file).2.
Proof.
  pose proof mock_catalog_keyed as Hmock.
  rewrite new_scheduler_eq. destruct PYSWIP; [|done].
  destruct (consult file new_engine) as [kb|e]; [|done].
  destruct (load_from_prolog_spec
              (mkScheduler file true (Some kb) ∅ ∅ ∅ []) kb eq_refl)
    as (s' & -> & _ & _ & _ & Hcat).
  unfold keyed_by_id. simpl in *.
  destruct (ended (get_course_details kb).1);
    [|by destruct Hcat as (-> & -> & ->)].
  destruct (ended (get_time_details (get_course_details kb).2).1);
    [|by destruct Hcat as (-> & -> & ->)].
  destruct (ended (get_room_details
                     (get_time_details (get_course_details kb).2).2).1);
    [|by destruct Hcat as (-> & -> & ->)].
  destruct Hcat as (-> & -> & ->).
  repeat split; apply foldl_insert_Forall; try done; apply map_Forall_empty.
Qed.

(** X14: when the file was consulted and one of the three loading queries
    raises, the catalog is the mock catalog, whatever had been loaded before,
    while [prolog_available] stays true: later calls still go to the
    knowledge base. *)
Theorem failed_load_falls_back_to_mock file kb :
  consult file new_engine = Ok kb →
  let cs := get_course_details kb in
  let ts := get_time_details cs.2 in
  let rs := get_room_details ts.2 in
  ended cs.1 = Raised ∨ ended ts.1 = Raised ∨ ended rs.1 = Raised →
  let s := (new_scheduler true file).2 in
  prolog_available s = true ∧ courses s = mock_courses ∧
  time_slots s = mock_time_slots ∧ rooms s = mock_rooms.
Proof.
  intros Hconsult cs ts rs Hraised s. subst s.
  rewrite new_scheduler_eq, Hconsult.
  destruct (load_from_prolog_spec
              (mkScheduler file true (Some kb) ∅ ∅ ∅ []) kb eq_refl)
    as (s' & -> & _ & Hav & _ & Hcat).
  fold cs ts rs in Hcat. simpl in *. split; [done|].
  destruct (ended cs.1); [|done].
  destruct (ended ts.1); [|done].
  destruct (ended rs.1); [|done].
  by destruct Hraised as [[=]|[[=]|[=]]].
Qed.

(** X15: when the file was consulted and the three loading queries end
    normally, each dictionary holds, under every id, the record built from the
    last answer with that id, and nothing under an id no answer has; a loaded
    course has an empty [teacher_id], a loaded slot the duration
    [(end - start) // 100]. *)
Theorem loaded_catalog_last_answer_wins file kb (id : string) :
  consult file new_engine = Ok kb →
  let cs := get_course_details kb in
  let ts := get_time_details cs.2 in
  let rs := get_room_details ts.2 in
  ended cs.1 = Exhausted → ended ts.1 = Exhausted → ended rs.1 = Exhausted →
  let s := (new_scheduler true file).2 in
  courses s !! id
    = last_fact (λ x, Course.id (course_of_fact x)) course_of_fact (solutions cs.1) id ∧
  time_slots s !! id
    = last_fact (λ x, TimeSlot.id (slot_of_fact x)) slot_of_fact (solutions ts.1) id ∧
  rooms s !! id
    = last_fact (λ x, Room.id (room_of_fact x)) room_of_fact (solutions rs.1) id.
Proof.
  intros Hconsult cs ts rs Hcs Hts Hrs s. subst s.
  rewrite new_scheduler_eq, Hconsult.
  destruct (load_from_prolog_spec
              (mkScheduler file true (Some kb) ∅ ∅ ∅ []) kb eq_refl)
    as (s' & -> & _ & _ & _ & Hcat).
  fold cs ts rs in Hcat. rewrite Hcs, Hts, Hrs in Hcat.
  destruct Hcat as (Hc & Ht & Hr). cbn [snd]. rewrite Hc, Ht, Hr.
  cbn [courses time_slots rooms]. rewrite !foldl_insert_lookup, !lookup_empty.
  repeat split; by destruct (last_fact _ _ _ _).
Qed.
End Loading.

(** ** Generation and statistics together *)

Section Together.
Context {KB : Type} {engine : PrologEngine KB}.
Implicit Types (s : TimetableScheduler KB).

Lemma omap_all_None {A B} (f : A → option B) (l : list A) :
  Forall (λ x, f x = None) l → omap f l = [].
Proof.
  induction 1 as [|x l Hx _ IH]; [done|].
  cbn [omap list_omap]. by rewrite Hx.
Qed.

(** X16: success does not mean that anything was scheduled.  In Prolog mode,
    when a timetable was found and none of its triples has its three ids in
    the catalog (an empty timetable included), [generate_schedule] returns
    true with an empty schedule, and [get_statistics] on the result returns
    the empty dictionary, without the key scheduled_courses. *)
Theorem success_with_nothing_scheduled s kb :
  prolog_available s = true → prolog s = Some kb →
  let cleared := clear_schedule kb in
  let generated := generate_optimal_timetable cleared.2 in
  let stored := get_schedule generated.2 in
  ended cleared.1 = Exhausted → ended generated.1 = Exhausted →
  solutions generated.1 ≠ [] → ended stored.1 = Exhausted →
  Forall (λ triple, hydrate s triple = None) (concat (solutions stored.1)) →
  ∃ s', generate_schedule s = (Ok true, s') ∧ schedule s' = [] ∧
        ∃ stats, get_statistics s' = (Ok stats, s') ∧
                 getitem stats "scheduled_courses"
                 = Raise (KeyError "scheduled_courses").
Proof.
  intros Hav Hkb cleared generated stored Hc Hg Hsol Hs Hnone.
  eexists. split.
  - unfold generate_schedule, bind, get. simpl. rewrite Hav.
    rewrite generate_prolog_spec, Hkb. cbv zeta.
    fold cleared. rewrite Hc. fold generated. rewrite Hg.
    destruct (solutions generated.1); [done|].
    fold stored. rewrite Hs, (omap_all_None _ _ Hnone). done.
  - split; [done|]. rewrite get_statistics_eq. cbn [schedule set_schedule].
    by eexists.
Qed.
End Together.

(** ** More concrete runs *)

Lemma reported_conflicts_are_double_bookings_witness :
  (check_conflicts (set_schedule [early_lesson; same_start_lesson] demo_scheduler)).1
  = Ok [teacher_conflict "Dr. Smith" "monday_800";
        room_conflict "r001" "monday_800"] ∧
  room_conflict "r001" "monday_800"
    ∈ [teacher_conflict "Dr. Smith" "monday_800";
       room_conflict "r001" "monday_800"] ∧
  ∃ e,
    (room_conflict "r001" "monday_800"
     = teacher_conflict (Course.teacher_name (course e)) (slot_text e)
     ∧ teacher_double_booked [early_lesson; same_start_lesson] e)
    ∨ (room_conflict "r001" "monday_800"
       = room_conflict (Room.id (room e)) (slot_text e)
       ∧ room_double_booked [early_lesson; same_start_lesson] e).
Proof.
  assert ((check_conflicts
             (set_schedule [early_lesson; same_start_lesson] demo_scheduler)).1
          = Ok [teacher_conflict "Dr. Smith" "monday_800";
                room_conflict "r001" "monday_800"]) as Hfound
    by (vm_compute; reflexivity).
  assert (room_conflict "r001" "monday_800"
            ∈ [teacher_conflict "Dr. Smith" "monday_800";
               room_conflict "r001" "monday_800"]) as Hin
    by (right; left).
  split; [done|]. split; [done|].
  exact (reported_conflicts_are_double_bookings _ _ _ Hfound Hin).
Defined.

Lemma conflict_count_order_witness :
  schedule (set_schedule [early_lesson; same_start_lesson; late_lesson] demo_scheduler)
    ≡ₚ schedule (set_schedule [late_lesson; same_start_lesson; early_lesson] demo_scheduler) ∧
  (check_conflicts
     (set_schedule [early_lesson; same_start_lesson; late_lesson] demo_scheduler)).1
  = Ok [teacher_conflict "Dr. Smith" "monday_800";
        room_conflict "r001" "monday_800"] ∧
  (check_conflicts
     (set_schedule [late_lesson; same_start_lesson; early_lesson] demo_scheduler)).1
  = Ok [teacher_conflict "Dr. Smith" "monday_800";
        room_conflict "r001" "monday_800"] ∧
  length [teacher_conflict "Dr. Smith" "monday_800";
          room_conflict "r001" "monday_800"]
  = length [teacher_conflict "Dr. Smith" "monday_800";
            room_conflict "r001" "monday_800"].
Proof.
  assert (schedule (set_schedule [early_lesson; same_start_lesson; late_lesson]
                      demo_scheduler)
          ≡ₚ schedule (set_schedule [late_lesson; same_start_lesson; early_lesson]
                         demo_scheduler)) as Hperm.
  { cbn [schedule set_schedule]. apply (Permutation_rev [_; _; _]). }
  assert ((check_conflicts
             (set_schedule [early_lesson; same_start_lesson; late_lesson]
                demo_scheduler)).1
          = Ok [teacher_conflict "Dr. Smith" "monday_800";
                room_conflict "r001" "monday_800"]) as H1
    by (vm_compute; reflexivity).
  assert ((check_conflicts
             (set_schedule [late_lesson; same_start_lesson; early_lesson]
                demo_scheduler)).1
          = Ok [teacher_conflict "Dr. Smith" "monday_800";
                room_conflict "r001" "monday_800"]) as H2
    by (vm_compute; reflexivity).
  split; [done|]. split; [done|]. split; [done|].
  exact (conflict_count_order _ _ _ _ Hperm H1 H2).
Defined.

Lemma printable_statistics_bounds_witness :
  schedule (set_schedule mock_schedule demo_scheduler) ≠ [] ∧
  all_printable (schedule (set_schedule mock_schedule demo_scheduler)) ∧
  ∃ (stats : gmap string Z) (n used_rooms used_slots found : Z),
    get_statistics (set_schedule mock_schedule demo_scheduler)
    = (Ok stats, set_schedule mock_schedule demo_scheduler) ∧
    dom stats = {[ "total_courses"; "scheduled_courses"; "total_rooms";
                   "used_rooms"; "total_time_slots"; "used_time_slots";
                   "conflicts" ]} ∧
    stats !! "scheduled_courses" = Some n ∧
    n = Z.of_nat (length (schedule (set_schedule mock_schedule demo_scheduler))) ∧
    stats !! "used_rooms" = Some used_rooms ∧ (1 ≤ used_rooms ≤ n)%Z ∧
    stats !! "used_time_slots" = Some used_slots ∧ (1 ≤ used_slots ≤ n)%Z ∧
    stats !! "conflicts" = Some found ∧ (0 ≤ found ≤ 2 * (n - 1))%Z.
Proof.
  assert (schedule (set_schedule mock_schedule demo_scheduler) ≠ []) as Hne
    by discriminate.
  split; [done|]. split; [exact mock_schedule_printable|].
  exact (printable_statistics_bounds _ Hne mock_schedule_printable).
Defined.

Lemma printable_conflict_count_witness :
  all_printable (schedule (set_schedule [early_lesson; same_start_lesson]
                             demo_scheduler)) ∧
  ∃ found,
    check_conflicts (set_schedule [early_lesson; same_start_lesson] demo_scheduler)
    = (Ok found, set_schedule [early_lesson; same_start_lesson] demo_scheduler) ∧
    (length found
     + size (list_to_set (teacher_booking <$> [early_lesson; same_start_lesson])
             : gset (string * string * Z))
     + size (list_to_set (room_booking <$> [early_lesson; same_start_lesson])
             : gset (string * string * Z))
     = 2 * length [early_lesson; same_start_lesson])%nat.
Proof.
  assert (all_printable (schedule (set_schedule [early_lesson; same_start_lesson]
                                     demo_scheduler))) as Hprint.
  { repeat constructor; by apply printable_small. }
  split; [done|]. exact (printable_conflict_count _ Hprint).
Defined.

Lemma printable_conflicts_extend_witness :
  all_printable ([early_lesson] ++ [same_start_lesson]) ∧
  ∃ found more,
    check_conflicts (set_schedule [early_lesson] demo_scheduler)
    = (Ok found, set_schedule [early_lesson] demo_scheduler) ∧
    check_conflicts (set_schedule ([early_lesson] ++ [same_start_lesson]) demo_scheduler)
    = (Ok (found ++ more)%list,
       set_schedule ([early_lesson] ++ [same_start_lesson]) demo_scheduler) ∧
    (length more ≤ 2 * length [same_start_lesson])%nat.
Proof.
  assert (all_printable ([early_lesson] ++ [same_start_lesson])) as Hprint.
  { repeat constructor; by apply printable_small. }
  split; [done|].
  exact (printable_conflicts_extend demo_scheduler
           [early_lesson] [same_start_lesson] Hprint).
Defined.

Lemma prolog_generation_hydrates_witness :
  prolog_available shared_start_scheduler = true ∧
  prolog shared_start_scheduler = Some shared_start_kb ∧
  ended (clear_schedule (PrologEngine := shared_start_engine) shared_start_kb).1
    = Exhausted ∧
  ended (generate_optimal_timetable (PrologEngine := shared_start_engine)
           shared_start_kb).1 = Exhausted ∧
  solutions (generate_optimal_timetable (PrologEngine := shared_start_engine)
               shared_start_kb).1 ≠ [] ∧
  generate_schedule (engine := shared_start_engine) shared_start_scheduler
  = (Ok true,
     set_schedule
       (omap (hydrate shared_start_scheduler)
             [("c1", "s1", "r1"); ("c2", "s2", "r2")])
       (set_prolog (Some shared_start_kb) shared_start_scheduler))
  ∧ (length (omap (hydrate shared_start_scheduler)
                  [("c1", "s1", "r1"); ("c2", "s2", "r2")])
     ≤ length [("c1", "s1", "r1"); ("c2", "s2", "r2")])%nat.
Proof.
  assert (solutions (generate_optimal_timetable (PrologEngine := shared_start_engine)
                       shared_start_kb).1 ≠ []) as Hsol by discriminate.
  do 5 (split; [done|]).
  exact (prolog_generation_hydrates (engine := shared_start_engine)
           shared_start_scheduler shared_start_kb
           eq_refl eq_refl eq_refl eq_refl Hsol).
Defined.

Lemma prolog_generation_failure_keeps_schedule_witness :
  prolog_available (set_schedule mock_schedule infeasible_scheduler) = true ∧
  (prolog (set_schedule mock_schedule infeasible_scheduler) = None ∨
   ∃ kb, prolog (set_schedule mock_schedule infeasible_scheduler) = Some kb ∧
     (ended (clear_schedule (PrologEngine := infeasible_engine) kb).1 = Raised ∨
      ended (generate_optimal_timetable (PrologEngine := infeasible_engine)
               (clear_schedule (PrologEngine := infeasible_engine) kb).2).1 = Raised ∨
      solutions (generate_optimal_timetable (PrologEngine := infeasible_engine)
                   (clear_schedule (PrologEngine := infeasible_engine) kb).2).1 = [])) ∧
  (generate_schedule (engine := infeasible_engine)
     (set_schedule mock_schedule infeasible_scheduler)).1 = Ok false ∧
  schedule (generate_schedule (engine := infeasible_engine)
              (set_schedule mock_schedule infeasible_scheduler)).2
  = mock_schedule.
Proof.
  assert (prolog (set_schedule mock_schedule infeasible_scheduler) = None ∨
   ∃ kb, prolog (set_schedule mock_schedule infeasible_scheduler) = Some kb ∧
     (ended (clear_schedule (PrologEngine := infeasible_engine) kb).1 = Raised ∨
      ended (generate_optimal_timetable (PrologEngine := infeasible_engine)
               (clear_schedule (PrologEngine := infeasible_engine) kb).2).1 = Raised ∨
      solutions (generate_optimal_timetable (PrologEngine := infeasible_engine)
                   (clear_schedule (PrologEngine := infeasible_engine) kb).2).1 = []))
    as Hfail.
  { right. exists infeasible_kb. split; [reflexivity|]. right. right. reflexivity. }
  split; [reflexivity|]. split; [exact Hfail|].
  exact (prolog_generation_failure_keeps_schedule (engine := infeasible_engine)
           (set_schedule mock_schedule infeasible_scheduler) eq_refl Hfail).
Defined.

Lemma generated_entries_from_catalog_witness :
  generate_schedule (engine := shared_start_engine) shared_start_scheduler
  = (Ok true, (generate_schedule (engine := shared_start_engine)
                 shared_start_scheduler).2) ∧
  Forall (from_catalog (generate_schedule (engine := shared_start_engine)
                          shared_start_scheduler).2)
         (schedule (generate_schedule (engine := shared_start_engine)
                      shared_start_scheduler).2).
Proof.
  assert (generate_schedule (engine := shared_start_engine) shared_start_scheduler
          = (Ok true, (generate_schedule (engine := shared_start_engine)
                         shared_start_scheduler).2)) as Hgen
    by (vm_compute; reflexivity).
  split; [exact Hgen|].
  exact (generated_entries_from_catalog (engine := shared_start_engine) _ _ Hgen).
Defined.

Lemma mock_generation_needs_its_ids_witness :
  prolog_available (set_courses ∅ (set_schedule mock_schedule demo_scheduler))
    = false ∧
  ¬ mock_ids_present (set_courses ∅ (set_schedule mock_schedule demo_scheduler)) ∧
  ∃ id, generate_schedule (set_courses ∅ (set_schedule mock_schedule demo_scheduler))
        = (Raise (KeyError id),
           set_courses ∅ (set_schedule mock_schedule demo_scheduler)) ∧
        id ∈ ["cs101"; "slot3"; "r001"; "math101"; "slot1"; "r002";
              "phy101"; "slot5"; "r003"] ∧
        (courses (set_courses ∅ (set_schedule mock_schedule demo_scheduler)) !! id
           = None ∨
         time_slots (set_courses ∅ (set_schedule mock_schedule demo_scheduler)) !! id
           = None ∨
         rooms (set_courses ∅ (set_schedule mock_schedule demo_scheduler)) !! id
           = None).
Proof.
  assert (¬ mock_ids_present
            (set_courses ∅ (set_schedule mock_schedule demo_scheduler))) as Hmissing.
  { intros ((Hcs101 & _) & _). destruct Hcs101 as [c Hc]. discriminate Hc. }
  split; [reflexivity|]. split; [exact Hmissing|].
  exact (proj2 (mock_generation_needs_its_ids
                  (set_courses ∅ (set_schedule mock_schedule demo_scheduler))
                  eq_refl) Hmissing).
Defined.

Lemma failed_load_falls_back_to_mock_witness :
  consult (PrologEngine := failing_rooms_engine) demo_file
          (new_engine (PrologEngine := failing_rooms_engine))
    = Ok shared_start_kb ∧
  (ended (get_course_details (PrologEngine := failing_rooms_engine)
            shared_start_kb).1 = Raised ∨
   ended (get_time_details (PrologEngine := failing_rooms_engine)
            shared_start_kb).1 = Raised ∨
   ended (get_room_details (PrologEngine := failing_rooms_engine)
            shared_start_kb).1 = Raised) ∧
  prolog_available (new_scheduler (engine := failing_rooms_engine) true demo_file).2
    = true ∧
  courses (new_scheduler (engine := failing_rooms_engine) true demo_file).2
    = mock_courses ∧
  time_slots (new_scheduler (engine := failing_rooms_engine) true demo_file).2
    = mock_time_slots ∧
  rooms (new_scheduler (engine := failing_rooms_engine) true demo_file).2
    = mock_rooms.
Proof.
  split; [reflexivity|]. split; [right; right; reflexivity|].
  exact (failed_load_falls_back_to_mock (engine := failing_rooms_engine)
           demo_file shared_start_kb eq_refl
           (or_intror (or_intror eq_refl))).
Defined.

Lemma loaded_catalog_last_answer_wins_witness :
  consult (PrologEngine := repeated_course_engine) demo_file
          (new_engine (PrologEngine := repeated_course_engine))
    = Ok repeated_course_kb ∧
  courses (new_scheduler (engine := repeated_course_engine) true demo_file).2 !! "c1"
    = Some (Course.mk "c1" "Algebra II" "" "Dr. Baker" 2 "classroom") ∧
  time_slots (new_scheduler (engine := repeated_course_engine) true demo_file).2 !! "c1"
    = None ∧
  rooms (new_scheduler (engine := repeated_course_engine) true demo_file).2 !! "c1"
    = None.
Proof.
  split; [reflexivity|].
  exact (loaded_catalog_last_answer_wins (engine := repeated_course_engine)
           demo_file repeated_course_kb "c1" eq_refl eq_refl eq_refl eq_refl).
Defined.

Lemma success_with_nothing_scheduled_witness :
  prolog_available unknown_course_scheduler = true ∧
  prolog unknown_course_scheduler = Some unknown_course_kb ∧
  Forall (λ triple, hydrate unknown_course_scheduler triple = None)
         [("c9", "s1", "r1")] ∧
  ∃ s', generate_schedule (engine := unknown_course_engine) unknown_course_scheduler
        = (Ok true, s') ∧ schedule s' = [] ∧
        ∃ stats, get_statistics s' = (Ok stats, s') ∧
                 getitem stats "scheduled_courses"
                 = Raise (KeyError "scheduled_courses").
Proof.
  assert (Forall (λ triple, hydrate unknown_course_scheduler triple = None)
                 [("c9", "s1", "r1")]) as Hnone.
  { constructor; [reflexivity|constructor]. }
  assert (solutions (generate_optimal_timetable (PrologEngine := unknown_course_engine)
                       unknown_course_kb).1 ≠ []) as Hsol by discriminate.
  do 3 (split; [done|]).
  exact (success_with_nothing_scheduled (engine := unknown_course_engine)
           unknown_course_scheduler unknown_course_kb
           eq_refl eq_refl eq_refl eq_refl Hsol eq_refl Hnone).
Defined.
